(** * FlexSix: the shopping-cart demo page

    A shallow embedding of the product page of [src/App.jsx] (hooks and
    async/await) and of its promise-chain sibling, the second source file
    of the repository.  Both files define the same [ProductList] component;
    where they differ (the [loading] flag, one extra console line, the
    [AddProductForm] component) the difference is a case on [variant].

    Conventions.
    - A JavaScript string is a [string]: a sequence of code units below
      256, read as Latin-1 code points.  [toLowerCase] is the Unicode
      lower-casing restricted to that range, where it works unit by unit;
      no statement below relies on that beyond the range (none uses that
      lower-casing distributes over concatenation).
    - A product is the record [{id, name, price}] of the page.  [id] is a
      JSON integer, compared with [===] and printed in decimal by a
      template literal.  [price] is a JavaScript number, that is a
      binary64 float, and [+] is the IEEE-754 addition.
    - An asynchronous handler is split at its [await]: the part that runs
      at the click builds the request and captures the state variables of
      the render it was created in; the part that runs when the request
      settles performs the state update. *)

From Stdlib Require Import ZArith List String Ascii Bool Floats QArith DecimalString Lia.
Import ListNotations.

Set Warnings "-inexact-float".

Local Open Scope string_scope.
Local Open Scope Z_scope.

(** ** Strings *)

Module Js.

(** [String.prototype.toLowerCase] on one code unit: A-Z and the Latin-1
    capitals U+00C0..U+00DE (without the multiplication sign U+00D7) move
    up by 32, every other code unit below 256 is its own lower case. *)
Definition lowerUnit (c : ascii) : ascii :=
  let n := N_of_ascii c in
  if ((65 <=? n) && (n <=? 90))%N
     || ((192 <=? n) && (n <=? 222) && negb (n =? 215))%N
  then ascii_of_N (n + 32)
  else c.

Fixpoint toLowerCase (s : string) : string :=
  match s with
  | EmptyString => EmptyString
  | String c rest => String (lowerUnit c) (toLowerCase rest)
  end.

(** [s.startsWith(t)] *)
Fixpoint startsWith (s t : string) {struct t} : bool :=
  match t, s with
  | EmptyString, _ => true
  | String _ _, EmptyString => false
  | String b t', String a s' => Ascii.eqb a b && startsWith s' t'
  end.

(** [s.includes(t)]: [t] occurs in [s] at some position, the search
    starting at position 0. *)
Fixpoint includes (s t : string) : bool :=
  startsWith s t
  || match s with
     | EmptyString => false
     | String _ s' => includes s' t
     end.

(** The substring relation [includes] decides. *)
Definition Contains (s t : string) : Prop :=
  exists before after, s = before ++ t ++ after.

(** A template literal prints an integer in decimal, with a minus sign
    when negative (below 1e21 in size; the digits themselves are used by
    no proof). *)
Definition ofInteger (z : Z) : string :=
  NilZero.string_of_int (Z.to_int z).

End Js.

(** ** Data *)

Record product : Type := mkProduct
  { id : Z;
    name : string;
    price : float }.

(** [products.filter(p => p.name.toLowerCase().includes(search.toLowerCase()))] *)
Definition filteredProducts (products : list product) (search : string)
  : list product :=
  filter
    (fun product =>
       Js.includes (Js.toLowerCase (name product)) (Js.toLowerCase search))
    products.

(** [Array.prototype.filter], as a relation: [kept P l l'] holds when [l']
    lists, in the order of [l], exactly the elements of [l] satisfying [P]. *)
Inductive kept {A : Type} (P : A -> Prop) : list A -> list A -> Prop :=
| kept_nil : kept P [] []
| kept_keep x l l' : P x -> kept P l l' -> kept P (x :: l) (x :: l')
| kept_drop x l l' : ~ P x -> kept P l l' -> kept P (x :: l) l'.


(** [{ ...p, price: x }] *)
Definition withPrice (p : product) (x : float) : product :=
  {| id := p.(id); name := p.(name); price := x |}.

(** The rational number a finite binary64 value stands for; [None] for
    the infinities and NaN. *)
Definition exactValue (x : float) : option Q :=
  match Prim2SF x with
  | S754_zero _ => Some 0%Q
  | S754_finite negative m e =>
      Some ((if negative then -1 else 1) * inject_Z (Zpos m) * 2 ^ e)%Q
  | S754_infinity _ | S754_nan => None
  end.

(** [b] is exactly ten more than [a], as numbers. *)
Definition exactlyTenGreater (a b : float) : Prop :=
  match exactValue a, exactValue b with
  | Some x, Some y => (y == x + 10)%Q
  | _, _ => False
  end.

(** ** HTTP *)

Inductive method : Type := GET | POST | PUT | DELETE.

Inductive body : Type :=
| NoBody
| JsonBody (value : product)                    (* JSON.stringify(value) *)
| FormBody (fields : list (string * string)).   (* a FormData object *)

Record request : Type := mkRequest
  { meth : method;
    url : string;
    headers : list (string * string);
    payload : body }.

Definition host : string := "https://api.example.com".

Definition jsonHeaders : list (string * string) :=
  [("Content-Type", "application/json")].

(** [fetch(url)] with no second argument is a GET without headers or body. *)
Definition fetchUrl (u : string) : request := mkRequest GET u [] NoBody.

(** How a request settles, as far as the handlers look at it: the promise
    of [fetch] rejects, or it is fulfilled with a response whose [ok] flag
    is [ok] and whose [json()] promise is fulfilled with [Some data] or
    rejects ([None], the body is not JSON).  The data is taken at the shape
    the handler reads it. *)
Inductive outcome (A : Type) : Type :=
| Rejected
| Fulfilled (ok : bool) (json : option A).

Arguments Rejected {A}.
Arguments Fulfilled {A} ok json.

(** ** The ProductList component *)

Inductive variant : Type :=
| AsyncAwait      (* src/App.jsx: the useFetch hook, async functions *)
| PromiseChain.   (* the sibling file: fetch(...).then(...).catch(...) *)

Module ProductList.

Record state : Type := mkState
  { products : list product;
    cart : list product;
    search : string;
    loading : bool }.

Definition setProducts (v : list product) (st : state) : state :=
  mkState v st.(cart) st.(search) st.(loading).
Definition setCart (v : list product) (st : state) : state :=
  mkState st.(products) v st.(search) st.(loading).
Definition setSearch (v : string) (st : state) : state :=
  mkState st.(products) st.(cart) v st.(loading).
Definition setLoading (v : bool) (st : state) : state :=
  mkState st.(products) st.(cart) st.(search) v.

(** [useState([])], [useState('')]; [useState(true)] for [loading], a
    flag only the hook of src/App.jsx has. *)
Definition initial (v : variant) : state :=
  mkState [] [] ""
          match v with AsyncAwait => true | PromiseChain => false end.

(** *** Loading the products *)

Definition fetchData : request := fetchUrl (host ++ "/products").

(** The continuation of the fetch.  The setters a continuation calls are
    applied together, in one render. *)
Definition fetchData_settled (v : variant) (o : outcome (list product))
           (st : state) : state * list string :=
  match v with
  | AsyncAwait =>
      (* try { setData(jsonData) } catch { log } finally { setLoading(false) } *)
      match o with
      | Fulfilled _ (Some jsonData) =>
          (setLoading false (setProducts jsonData st), [])
      | _ => (setLoading false st, ["Error fetching data:"])
      end
  | PromiseChain =>
      match o with
      | Fulfilled _ (Some data) => (setProducts data st, [])
      | _ => (st, ["Error fetching products:"])
      end
  end.

(** *** addToCart *)

Definition addToCart (product : product) : request :=
  mkRequest POST (host ++ "/cart") jsonHeaders (JsonBody product).

(** [cart] is the variable the handler closed over; [st] is the state
    of the component when the request settles. *)
Definition addToCart_settled (cart : list product) (o : outcome product)
           (st : state) : state * list string :=
  match o with
  | Fulfilled _ (Some data) => (setCart (cart ++ [data]) st, [])
  | _ => (st, ["Error adding to cart:"])
  end.

(** *** removeFromCart *)

Definition removeFromCart (targetId : Z) : request :=
  mkRequest DELETE (host ++ "/cart/" ++ Js.ofInteger targetId) [] NoBody.

Definition removeFromCart_settled (v : variant) (cart : list product)
           (targetId : Z) (o : outcome unit) (st : state)
  : state * list string :=
  match o with
  | Fulfilled true _ =>
      (setCart (filter (fun item => negb (item.(id) =? targetId)) cart) st, [])
  | Fulfilled false _ =>
      (st, match v with
           | AsyncAwait => []
           | PromiseChain => ["Error deleting from cart"]
           end)
  | Rejected => (st, ["Error removing from cart:"])
  end.

(** *** updateProductPrice *)

(** The synchronous part: [None] when the guard returns early. *)
Definition updateProductPrice (products : list product) (targetId : Z)
  : option request :=
  match find (fun p => p.(id) =? targetId) products with
  | None => None
  | Some productToUpdate =>
      let updatedProduct :=
        withPrice productToUpdate (productToUpdate.(price) + 10)%float in
      Some (mkRequest PUT (host ++ "/products/" ++ Js.ofInteger targetId)
                      jsonHeaders (JsonBody updatedProduct))
  end.

Definition updateProductPrice_settled (products : list product)
           (targetId : Z) (o : outcome product) (st : state)
  : state * list string :=
  match o with
  | Fulfilled _ (Some data) =>
      (setProducts
         (map (fun product =>
                 if product.(id) =? targetId
                 then withPrice product data.(price)
                 else product)
              products)
         st, [])
  | _ => (st, ["Error updating product:"])
  end.

(** *** Rendering *)

Inductive view : Type :=
| LoadingProducts                                     (* <p>Loading products...</p> *)
| Page (rows : list product) (cartRows : list product).

Definition render (st : state) : view :=
  if st.(loading) then LoadingProducts
  else Page (filteredProducts st.(products) st.(search)) st.(cart).

(** The products on the screen. *)
Definition displayedProducts (st : state) : list product :=
  match render st with
  | LoadingProducts => []
  | Page rows _ => rows
  end.

End ProductList.

(** ** The AddProductForm component (src/App.jsx only) *)

Module AddProductForm.

Record state : Type := mkState
  { name : string;
    price : string;      (* the value of the number input, a string *)
    message : string }.

Definition setName (v : string) (st : state) : state :=
  mkState v st.(price) st.(message).
Definition setPrice (v : string) (st : state) : state :=
  mkState st.(name) v st.(message).
Definition setMessage (v : string) (st : state) : state :=
  mkState st.(name) st.(price) v.

Definition initial : state := mkState "" "" "".

Definition handleSubmit (st : state) : request :=
  mkRequest POST (host ++ "/add-product") []
            (FormBody [("name", st.(name)); ("price", st.(price))]).

Definition handleSubmit_settled (o : outcome unit) (st : state)
  : state * list string :=
  match o with
  | Fulfilled _ (Some _) => (setMessage "Product added successfully!" st, [])
  | _ => (setMessage "Error adding product" st, ["Error adding product:"])
  end.

(** The promise of [fetch] is fulfilled, whatever [json()] does next. *)
Definition fetchResolves {A : Type} (o : outcome A) : bool :=
  match o with
  | Rejected => false
  | Fulfilled _ _ => true
  end.

(** [fetch] and [json()] are both fulfilled. *)
Definition bodyParsed {A : Type} (o : outcome A) : bool :=
  match o with
  | Fulfilled _ (Some _) => true
  | _ => false
  end.

End AddProductForm.

(** ** The page and its event loop *)

(** A request in flight, with the variables its continuation closed over. *)
Inductive pending : Type :=
| FetchData
| AddToCart (cart : list product)
| RemoveFromCart (cart : list product) (targetId : Z)
| UpdateProductPrice (products : list product) (targetId : Z)
| HandleSubmit.

Record world : Type := mkWorld
  { productList : ProductList.state;
    addProductForm : AddProductForm.state;
    inflight : list pending;      (* requests not settled yet, oldest first *)
    network : list request;       (* every request sent so far, oldest first *)
    console : list string }.      (* the first argument of each console.error *)

Definition boot (v : variant) : world :=
  mkWorld (ProductList.initial v) AddProductForm.initial [] [] [].

(** What can happen to the page: the effect runs, the user types or clicks,
    or the [n]-th request in flight settles. *)
Inductive event : Type :=
| Mount
| TypeSearch (value : string)
| ClickAddToCart (product : product)
| ClickRemove (targetId : Z)
| ClickUpdatePrice (targetId : Z)
| TypeName (value : string)
| TypePrice (value : string)
| Submit
| SettleList (n : nat) (o : outcome (list product))   (* GET /products *)
| SettleItem (n : nat) (o : outcome product)          (* POST /cart, PUT /products/id *)
| SettlePlain (n : nat) (o : outcome unit).           (* DELETE /cart/id, POST /add-product *)

Definition send (r : request) (k : pending) (w : world) : world :=
  mkWorld w.(productList) w.(addProductForm)
          (w.(inflight) ++ [k]) (w.(network) ++ [r]) w.(console).

Definition without {A : Type} (n : nat) (l : list A) : list A :=
  firstn n l ++ skipn (S n) l.

(** The continuation of the [n]-th request ran on the product list. *)
Definition resumeList (n : nat) (r : ProductList.state * list string)
           (w : world) : world :=
  mkWorld (fst r) w.(addProductForm)
          (without n w.(inflight)) w.(network) (w.(console) ++ snd r).

(** The continuation of the [n]-th request ran on the form. *)
Definition resumeForm (n : nat) (r : AddProductForm.state * list string)
           (w : world) : world :=
  mkWorld w.(productList) (fst r)
          (without n w.(inflight)) w.(network) (w.(console) ++ snd r).

Definition onProductList (f : ProductList.state -> ProductList.state)
           (w : world) : world :=
  mkWorld (f w.(productList)) w.(addProductForm)
          w.(inflight) w.(network) w.(console).

Definition onForm (v : variant)
           (f : AddProductForm.state -> AddProductForm.state)
           (w : world) : world :=
  match v with
  | AsyncAwait =>
      mkWorld w.(productList) (f w.(addProductForm))
              w.(inflight) w.(network) w.(console)
  | PromiseChain => w
  end.

(** One turn of the event loop.  A settle event that names no request in
    flight, or one of another kind, is not an event of the page: the world
    stays as it is. *)
Definition step (v : variant) (e : event) (w : world) : world :=
  match e with
  | Mount => send ProductList.fetchData FetchData w
  | TypeSearch value => onProductList (ProductList.setSearch value) w
  | ClickAddToCart product =>
      send (ProductList.addToCart product)
           (AddToCart w.(productList).(ProductList.cart)) w
  | ClickRemove targetId =>
      send (ProductList.removeFromCart targetId)
           (RemoveFromCart w.(productList).(ProductList.cart) targetId) w
  | ClickUpdatePrice targetId =>
      let products := w.(productList).(ProductList.products) in
      match ProductList.updateProductPrice products targetId with
      | None => w
      | Some r => send r (UpdateProductPrice products targetId) w
      end
  | TypeName value => onForm v (AddProductForm.setName value) w
  | TypePrice value => onForm v (AddProductForm.setPrice value) w
  | Submit =>
      match v with
      | AsyncAwait =>
          send (AddProductForm.handleSubmit w.(addProductForm)) HandleSubmit w
      | PromiseChain => w
      end
  | SettleList n o =>
      match nth_error w.(inflight) n with
      | Some FetchData =>
          resumeList n (ProductList.fetchData_settled v o w.(productList)) w
      | _ => w
      end
  | SettleItem n o =>
      match nth_error w.(inflight) n with
      | Some (AddToCart cart) =>
          resumeList n (ProductList.addToCart_settled cart o w.(productList)) w
      | Some (UpdateProductPrice products targetId) =>
          resumeList n
            (ProductList.updateProductPrice_settled products targetId o
                                                    w.(productList)) w
      | _ => w
      end
  | SettlePlain n o =>
      match nth_error w.(inflight) n with
      | Some (RemoveFromCart cart targetId) =>
          resumeList n
            (ProductList.removeFromCart_settled v cart targetId o
                                                w.(productList)) w
      | Some HandleSubmit =>
          resumeForm n (AddProductForm.handleSubmit_settled o w.(addProductForm)) w
      | _ => w
      end
  end.

Definition run (v : variant) (events : list event) (w : world) : world :=
  fold_left (fun w e => step v e w) events w.

(** The events in which a request settles. *)
Definition settles (e : event) : bool :=
  match e with
  | SettleList _ _ | SettleItem _ _ | SettlePlain _ _ => true
  | _ => false
  end.

(** ** The endpoints *)

Inductive endpoint : Type :=
| GetProducts
| PostCart
| DeleteCartItem (targetId : Z)
| PutProduct (targetId : Z)
| PostAddProduct.

Definition route (e : endpoint) : method * string :=
  match e with
  | GetProducts => (GET, host ++ "/products")
  | PostCart => (POST, host ++ "/cart")
  | DeleteCartItem targetId => (DELETE, host ++ "/cart/" ++ Js.ofInteger targetId)
  | PutProduct targetId => (PUT, host ++ "/products/" ++ Js.ofInteger targetId)
  | PostAddProduct => (POST, host ++ "/add-product")
  end.

Definition targets (r : request) (e : endpoint) : Prop :=
  (r.(meth), r.(url)) = route e.

(** ** Invariants of the event loop *)

(** [e] is the settling of the [n]-th request in flight, of kind [k]. *)
Definition settlesWith (k : pending) (n : nat) (e : event) : Prop :=
  match k, e with
  | FetchData, SettleList m _ => m = n
  | AddToCart _, SettleItem m _ => m = n
  | UpdateProductPrice _ _, SettleItem m _ => m = n
  | RemoveFromCart _ _, SettlePlain m _ => m = n
  | HandleSubmit, SettlePlain m _ => m = n
  | _, _ => False
  end.

(** Every request sent so far goes to one of the five endpoints. *)
Definition onlyKnownEndpoints (w : world) : Prop :=
  Forall (fun r => exists e, targets r e) w.(network).

Definition notUpdate (k : pending) : Prop :=
  match k with
  | UpdateProductPrice _ _ => False
  | _ => True
  end.

(** While [loading] is set there is no product and no price update in
    flight; the promise-chain page has no [loading] flag to set. *)
Definition loadingInvariant (v : variant) (w : world) : Prop :=
  (v = PromiseChain -> w.(productList).(ProductList.loading) = false)
  /\ (w.(productList).(ProductList.loading) = true ->
      w.(productList).(ProductList.products) = []
      /\ Forall notUpdate w.(inflight)).

(** ** Failure *)

(** The event in which the [n]-th request, of kind [k], is rejected by the
    network. *)
Definition rejection (n : nat) (k : pending) : event :=
  match k with
  | FetchData => SettleList n Rejected
  | AddToCart _ | UpdateProductPrice _ _ => SettleItem n Rejected
  | RemoveFromCart _ _ | HandleSubmit => SettlePlain n Rejected
  end.

(** The label each [catch] passes to [console.error]. *)
Definition errorLabel (v : variant) (k : pending) : string :=
  match k with
  | FetchData =>
      match v with
      | AsyncAwait => "Error fetching data:"
      | PromiseChain => "Error fetching products:"
      end
  | AddToCart _ => "Error adding to cart:"
  | RemoveFromCart _ _ => "Error removing from cart:"
  | UpdateProductPrice _ _ => "Error updating product:"
  | HandleSubmit => "Error adding product:"
  end.

(** The three handlers of ProductList that a click starts. *)
Definition isCartOrPriceRequest (k : pending) : bool :=
  match k with
  | AddToCart _ | RemoveFromCart _ _ | UpdateProductPrice _ _ => true
  | FetchData | HandleSubmit => false
  end.

(** ** Two readings the code does not satisfy *)

(** The message of the form follows the promise of [fetch] alone: success
    exactly when it is fulfilled, error exactly when it is rejected. *)
Definition messageFollowsFetch : Prop :=
  forall (o : outcome unit) (st : AddProductForm.state),
    let st' := fst (AddProductForm.handleSubmit_settled o st) in
    (st'.(AddProductForm.message) = "Product added successfully!"
     <-> AddProductForm.fetchResolves o = true)
    /\ (st'.(AddProductForm.message) = "Error adding product"
        <-> AddProductForm.fetchResolves o = false).

(** The product in the body of the PUT request costs exactly ten more than
    the product found in the list, and is otherwise the same. *)
Definition putBodyIsTenDearer : Prop :=
  forall (products : list product) (targetId : Z) (p : product),
    find (fun p => p.(id) =? targetId) products = Some p ->
    exists r sent,
      ProductList.updateProductPrice products targetId = Some r
      /\ r.(payload) = JsonBody sent
      /\ sent.(id) = p.(id) /\ sent.(name) = p.(name)
      /\ exactlyTenGreater p.(price) sent.(price).

(** ** Runs of the page *)

(** What identifies the rows of the product list: the ids and names, in
    order. *)
Definition shape (products : list product) : list (Z * string) :=
  map (fun p => (p.(id), p.(name))) products.

(** Every price update in flight closed over a product list with the rows
    of the current one. *)
Definition updatesMatch (w : world) : Prop :=
  Forall (fun k => match k with
                   | UpdateProductPrice products _ =>
                       shape products = shape w.(productList).(ProductList.products)
                   | _ => True
                   end)
         w.(inflight).

(** Any event but the arrival of a product list. *)
Definition noReload (e : event) : Prop :=
  match e with
  | SettleList _ (Fulfilled _ (Some _)) => False
  | _ => True
  end.

(** The events of the ProductList component: everything but the typing
    and submitting of the form. *)
Definition pageEvent (e : event) : Prop :=
  match e with
  | TypeName _ | TypePrice _ | Submit => False
  | _ => True
  end.

(** The two pages are in the same place, as far as ProductList goes. *)
Definition samePage (a b : world) : Prop :=
  a.(productList).(ProductList.products) = b.(productList).(ProductList.products)
  /\ a.(productList).(ProductList.cart) = b.(productList).(ProductList.cart)
  /\ a.(productList).(ProductList.search) = b.(productList).(ProductList.search)
  /\ a.(inflight) = b.(inflight)
  /\ a.(network) = b.(network).

(** The items the server returned: the parsed bodies of the item
    responses among the events. *)
Definition returned (events : list event) : list product :=
  flat_map (fun e => match e with
                     | SettleItem _ (Fulfilled _ (Some data)) => [data]
                     | _ => []
                     end)
           events.

(** Every cart, the current one and those closed over by requests in
    flight, holds only items of [pool]. *)
Definition cartsWithin (pool : list product) (w : world) : Prop :=
  incl w.(productList).(ProductList.cart) pool
  /\ Forall (fun k => match k with
                      | AddToCart cart | RemoveFromCart cart _ => incl cart pool
                      | _ => True
                      end)
            w.(inflight).

(** Clicks on Add to Cart, each one settled, with the returned item,
    before the next click; [n] is the number of requests in flight
    meanwhile. *)
Definition addOneByOne (n : nat) (clicks : list (product * product))
  : list event :=
  flat_map (fun c => [ClickAddToCart (fst c);
                      SettleItem n (Fulfilled true (Some (snd c)))])
           clicks.



(** ** Facts about strings *)

Lemma startsWith_spec s t :
  Js.startsWith s t = true <-> exists after, s = t ++ after.
Proof.
  revert s; induction t as [|b t IH]; intros s; simpl.
  - split; [intros _; now exists s | reflexivity].
  - destruct s as [|a s].
    + split; [discriminate | intros [r H]; discriminate].
    + rewrite andb_true_iff, Ascii.eqb_eq, IH. split.
      * intros [-> [r ->]]. now exists r.
      * intros [r H]. injection H as -> ->. split; [reflexivity | now exists r].
Qed.

Lemma includes_spec s t :
  Js.includes s t = true <-> Js.Contains s t.
Proof.
  unfold Js.Contains.
  induction s as [|a s IH].
  - cbn [Js.includes]. rewrite orb_false_r, startsWith_spec. split.
    + intros [r H]. now exists "", r.
    + intros [[|c p] [r H]]; [now exists r | discriminate].
  - cbn [Js.includes]. rewrite orb_true_iff, startsWith_spec, IH. split.
    + intros [[r H] | [p [r H]]].
      * now exists "", r.
      * exists (String a p), r. simpl. now rewrite H.
    + intros [[|c p] [r H]].
      * left. now exists r.
      * right. simpl in H. injection H as _ ->. now exists p, r.
Qed.

Lemma includes_empty s : Js.includes s "" = true.
Proof. apply includes_spec. now exists "", s. Qed.

Lemma kept_filter {A : Type} (P : A -> Prop) (f : A -> bool) :
  (forall x, f x = true <-> P x) ->
  forall l, kept P l (filter f l).
Proof.
  intros Hf l. induction l as [|x l IH]; simpl.
  - constructor.
  - destruct (f x) eqn:E.
    + apply kept_keep; [now apply Hf | exact IH].
    + apply kept_drop; [|exact IH].
      intros HP. apply Hf in HP. congruence.
Qed.

Lemma kept_In {A : Type} (P : A -> Prop) l l' :
  kept P l l' -> forall x, In x l' <-> In x l /\ P x.
Proof.
  induction 1 as [|y l l' Hy _ IH|y l l' Hy _ IH]; intros x; simpl.
  - tauto.
  - rewrite IH. split.
    + intros [->|[? ?]]; auto.
    + intros [[->|?] ?]; auto.
  - rewrite IH. split.
    + intros [? ?]; auto.
    + intros [[->|?] ?]; [contradiction | auto].
Qed.

(** ** The search filter *)

Example filteredProducts_ignores_case :
  filteredProducts
    [mkProduct 1 "Green Apple" 2%float; mkProduct 2 "Banana" 1%float;
     mkProduct 3 "pineAPPLE" 3%float]
    "aPPle"
  = [mkProduct 1 "Green Apple" 2%float; mkProduct 3 "pineAPPLE" 3%float].
Proof. reflexivity. Qed.

(** C9. The empty search string keeps every product: the filter returns
    the product list unchanged. *)
Theorem filteredProducts_empty_search :
  forall products : list product, filteredProducts products "" = products.
Proof.
  intros products. unfold filteredProducts. simpl Js.toLowerCase.
  induction products as [|p l IH]; simpl.
  - reflexivity.
  - rewrite includes_empty. now rewrite IH.
Qed.

(** ** Facts about the event loop *)

(** Unfolds one turn of the loop down to the handlers. *)
Ltac world_simpl :=
  cbn [step send resumeList resumeForm onProductList onForm
       productList addProductForm inflight network console].

Lemma nth_error_last {A : Type} (l : list A) (k : A) :
  nth_error (l ++ [k]) (List.length l) = Some k.
Proof.
  rewrite nth_error_app2 by lia.
  now rewrite Nat.sub_diag.
Qed.

Lemma nth_error_past {A : Type} (l : list A) :
  nth_error l (List.length l) = None.
Proof. apply nth_error_None. lia. Qed.

Lemma without_last {A : Type} (l : list A) (k : A) :
  without (List.length l) (l ++ [k]) = l.
Proof.
  unfold without.
  rewrite firstn_app, Nat.sub_diag, firstn_all, firstn_O, app_nil_r.
  rewrite skipn_all2; [now rewrite app_nil_r|].
  rewrite length_app; simpl; lia.
Qed.

Lemma find_present (products : list product) (targetId : Z) :
  (exists p, In p products /\ p.(id) = targetId) ->
  exists p, find (fun p => p.(id) =? targetId) products = Some p
            /\ In p products /\ p.(id) = targetId.
Proof.
  intros [q [Hin Hid]].
  destruct (find (fun p => p.(id) =? targetId) products) as [p|] eqn:E.
  - exists p. split; [reflexivity|].
    apply find_some in E. destruct E as [Hp Hq].
    split; [exact Hp | now apply Z.eqb_eq].
  - exfalso. apply (find_none _ _ E) in Hin.
    rewrite Hid, Z.eqb_refl in Hin. discriminate.
Qed.

Lemma find_absent (products : list product) (targetId : Z) :
  (forall p, In p products -> p.(id) <> targetId) ->
  find (fun p => p.(id) =? targetId) products = None.
Proof.
  intros H.
  destruct (find (fun p => p.(id) =? targetId) products) as [p|] eqn:E;
    [|reflexivity].
  apply find_some in E. destruct E as [Hp Hq].
  apply Z.eqb_eq in Hq. now apply H in Hp.
Qed.

(** ** The cart *)

(** A response that settles on the state in which its request was sent:
    an [addToCart] whose response is fulfilled and parsed appends the
    returned item, and nothing else, to the end of the cart; a
    [removeFromCart] whose DELETE response is ok leaves in the cart, in
    their original order, exactly the items whose id differs from the given
    id. *)
Theorem cart_add_appends_remove_filters :
  forall (v : variant) (w : world),
    (forall product ok data,
        let w' := step v (SettleItem (List.length w.(inflight))
                                     (Fulfilled ok (Some data)))
                       (step v (ClickAddToCart product) w) in
        w'.(productList) =
          ProductList.setCart (w.(productList).(ProductList.cart) ++ [data])%list
                              w.(productList)
        /\ w'.(inflight) = w.(inflight)
        /\ w'.(network) = (w.(network) ++ [ProductList.addToCart product])%list)
    /\ (forall targetId json,
        let w' := step v (SettlePlain (List.length w.(inflight))
                                      (Fulfilled true json))
                       (step v (ClickRemove targetId) w) in
        kept (fun item => item.(id) <> targetId)
             w.(productList).(ProductList.cart)
             w'.(productList).(ProductList.cart)
        /\ w'.(productList) =
             ProductList.setCart w'.(productList).(ProductList.cart)
                                 w.(productList)
        /\ w'.(inflight) = w.(inflight)).
Proof.
  intros v w. split.
  - intros product ok data. cbn zeta.
    world_simpl. rewrite nth_error_last. world_simpl.
    rewrite without_last.
    cbn [ProductList.addToCart_settled fst]. auto.
  - intros targetId json. cbn zeta.
    world_simpl. rewrite nth_error_last. world_simpl.
    rewrite without_last.
    cbn [ProductList.removeFromCart_settled fst
         ProductList.setCart ProductList.cart].
    repeat split.
    apply kept_filter. intros x.
    rewrite negb_true_iff, Z.eqb_neq. tauto.
Qed.

(** Whenever it settles, the continuation of an [addToCart] writes the cart
    its handler closed over, extended by the returned item. *)
Lemma addToCart_writes_captured_cart (v : variant) (w : world) (n : nat)
      (cart : list product) (ok : bool) (data : product) :
  nth_error w.(inflight) n = Some (AddToCart cart) ->
  (step v (SettleItem n (Fulfilled ok (Some data))) w).(productList)
  = ProductList.setCart (cart ++ [data]) w.(productList).
Proof.
  intros Hn. cbn [step]. rewrite Hn. reflexivity.
Qed.

(** Two overlapping [addToCart] calls close over the same cart: the
    response that settles last overwrites the item the first one added. *)
Example overlapping_addToCart_keeps_last :
  let a := mkProduct 1 "Pen" 2%float in
  let b := mkProduct 2 "Ink" 3%float in
  (run AsyncAwait
       [ClickAddToCart a; ClickAddToCart b;
        SettleItem 0 (Fulfilled true (Some a));
        SettleItem 0 (Fulfilled true (Some b))]
       (boot AsyncAwait)).(productList).(ProductList.cart) = [b].
Proof. reflexivity. Qed.

(** ** Updating a price *)

Lemma map_price_Forall2 (targetId : Z) (data : product) (l : list product) :
  Forall2
    (fun old new =>
       new.(id) = old.(id) /\ new.(name) = old.(name)
       /\ (old.(id) = targetId -> new.(price) = data.(price))
       /\ (old.(id) <> targetId -> new = old))
    l
    (map (fun product =>
            if product.(id) =? targetId
            then withPrice product data.(price)
            else product) l).
Proof.
  induction l as [|x l IH]; simpl; constructor; [|exact IH].
  destruct (Z.eqb_spec x.(id) targetId) as [E|E]; simpl; tauto.
Qed.

(** A response that settles on the state in which its request was sent:
    an [updateProductPrice] for an id of the list whose response is fulfilled
    and parsed changes only the price of the products with that id, to the
    price of the response. *)
Theorem updateProductPrice_changes_only_the_price :
  forall (v : variant) (w : world) (targetId : Z) (ok : bool) (data : product),
    (exists p, In p w.(productList).(ProductList.products)
               /\ p.(id) = targetId) ->
    let w' := step v (SettleItem (List.length w.(inflight))
                                 (Fulfilled ok (Some data)))
                   (step v (ClickUpdatePrice targetId) w) in
    Forall2
      (fun old new =>
         new.(id) = old.(id) /\ new.(name) = old.(name)
         /\ (old.(id) = targetId -> new.(price) = data.(price))
         /\ (old.(id) <> targetId -> new = old))
      w.(productList).(ProductList.products)
      w'.(productList).(ProductList.products)
    /\ w'.(productList) =
         ProductList.setProducts w'.(productList).(ProductList.products)
                                 w.(productList)
    /\ w'.(addProductForm) = w.(addProductForm)
    /\ w'.(console) = w.(console)
    /\ w'.(inflight) = w.(inflight)
    /\ exists r,
         ProductList.updateProductPrice
           w.(productList).(ProductList.products) targetId = Some r
         /\ w'.(network) = (w.(network) ++ [r])%list.
Proof.
  intros v w targetId ok data Hin. cbn zeta.
  apply find_present in Hin. destruct Hin as [p [Hfind _]].
  world_simpl. unfold ProductList.updateProductPrice. rewrite Hfind.
  world_simpl. rewrite nth_error_last. world_simpl.
  cbn [ProductList.updateProductPrice_settled fst snd
       ProductList.setProducts ProductList.products].
  rewrite app_nil_r, without_last. repeat split.
  - apply map_price_Forall2.
  - eexists. split; reflexivity.
Qed.

Lemma updateProductPrice_changes_only_the_price_witness :
  let pen := mkProduct 1 "Pen" 2%float in
  let ink := mkProduct 2 "Ink" 3%float in
  let w := mkWorld (ProductList.mkState [pen; ink] [] "" false)
                   AddProductForm.initial [] [] [] in
  (step AsyncAwait
        (SettleItem 0 (Fulfilled true (Some (mkProduct 1 "Pen" 12%float))))
        (step AsyncAwait (ClickUpdatePrice 1) w)).(productList)
    .(ProductList.products)
  = [mkProduct 1 "Pen" 12%float; ink]
  /\ Forall2
       (fun old new =>
          new.(id) = old.(id) /\ new.(name) = old.(name)
          /\ (old.(id) = 1 -> new.(price) = 12%float)
          /\ (old.(id) <> 1 -> new = old))
       [pen; ink]
       [mkProduct 1 "Pen" 12%float; ink].
Proof.
  cbn zeta. split; [reflexivity|].
  refine (proj1 (updateProductPrice_changes_only_the_price
                   AsyncAwait
                   (mkWorld (ProductList.mkState
                               [mkProduct 1 "Pen" 2%float;
                                mkProduct 2 "Ink" 3%float] [] "" false)
                            AddProductForm.initial [] [] [])
                   1 true (mkProduct 1 "Pen" 12%float) _)).
  exists (mkProduct 1 "Pen" 2%float). split; [simpl; auto | reflexivity].
Defined.

(** C8. For every id that no product of the list has, [updateProductPrice]
    does nothing: the guard returns before a request is built, so no request
    is sent, nothing is left in flight, and the state is unchanged. *)
Theorem updateProductPrice_absent_id_is_noop :
  forall (v : variant) (w : world) (targetId : Z),
    (forall p, In p w.(productList).(ProductList.products) ->
               p.(id) <> targetId) ->
    ProductList.updateProductPrice w.(productList).(ProductList.products)
                                   targetId = None
    /\ step v (ClickUpdatePrice targetId) w = w.
Proof.
  intros v w targetId H.
  assert (E : ProductList.updateProductPrice
                w.(productList).(ProductList.products) targetId = None).
  { unfold ProductList.updateProductPrice. now rewrite find_absent. }
  split; [exact E|].
  cbn [step]. now rewrite E.
Qed.

Lemma updateProductPrice_absent_id_is_noop_witness :
  let w := mkWorld (ProductList.mkState [mkProduct 1 "Pen" 2%float] [] "" false)
                   AddProductForm.initial [] [] [] in
  ProductList.updateProductPrice [mkProduct 1 "Pen" 2%float] 7 = None
  /\ step AsyncAwait (ClickUpdatePrice 7) w = w.
Proof.
  cbn zeta.
  apply (updateProductPrice_absent_id_is_noop
           AsyncAwait
           (mkWorld (ProductList.mkState [mkProduct 1 "Pen" 2%float] [] "" false)
                    AddProductForm.initial [] [] [])
           7).
  simpl. intros p [<-|[]]. simpl. discriminate.
Defined.

(** ** Rejected requests *)

(** C4. When the request of an [addToCart], [removeFromCart] or
    [updateProductPrice] is rejected, the only things that happen are that
    the request leaves the list of requests in flight and that one line goes
    to the console: products, cart and every other piece of state are
    unchanged, and no request is sent. *)
Theorem rejected_request_only_logs :
  forall (v : variant) (w : world) (n : nat) (k : pending),
    nth_error w.(inflight) n = Some k ->
    isCartOrPriceRequest k = true ->
    step v (rejection n k) w =
      mkWorld w.(productList) w.(addProductForm)
              (without n w.(inflight)) w.(network)
              (w.(console) ++ [errorLabel v k]).
Proof.
  intros v w n k Hn Hk.
  destruct k; try discriminate Hk;
    cbn [rejection step]; rewrite Hn; reflexivity.
Qed.

Lemma rejected_request_only_logs_witness :
  let pen := mkProduct 1 "Pen" 2%float in
  let w := step AsyncAwait (ClickAddToCart pen) (boot AsyncAwait) in
  step AsyncAwait (SettleItem 0 Rejected) w =
    mkWorld (ProductList.initial AsyncAwait) AddProductForm.initial
            [] [ProductList.addToCart pen] ["Error adding to cart:"].
Proof.
  cbn zeta.
  exact (rejected_request_only_logs
           AsyncAwait
           (step AsyncAwait (ClickAddToCart (mkProduct 1 "Pen" 2%float))
                 (boot AsyncAwait))
           0 (AddToCart []) eq_refl eq_refl).
Defined.

(** ** The body of the PUT request *)

(** A product priced 9.99: the body of the request carries
    19.990000000000002, the binary64 sum, which is not the price plus ten. *)
Lemma put_body_of_9_99 :
  ProductList.updateProductPrice [mkProduct 1 "Pen" 9.99%float] 1 =
    Some (mkRequest PUT "https://api.example.com/products/1" jsonHeaders
                    (JsonBody (mkProduct 1 "Pen" 19.990000000000002%float))).
Proof. reflexivity. Qed.

(** A product priced 1e300: the body of the request carries the same
    price. *)
Lemma put_body_of_1e300 :
  ProductList.updateProductPrice [mkProduct 1 "Pen" 1e300%float] 1 =
    Some (mkRequest PUT "https://api.example.com/products/1" jsonHeaders
                    (JsonBody (mkProduct 1 "Pen" 1e300%float))).
Proof. reflexivity. Qed.

(** In the other direction: at 19.99, 100 and 4.5 the sum is exact. *)
Lemma put_body_exact_prices :
  Forall (fun x => exactlyTenGreater x (x + 10)%float)
         [19.99%float; 100%float; 4.5%float].
Proof. repeat constructor; vm_compute; reflexivity. Qed.

(** C10, as stated, fails: for the product [{id: 1, name: "Pen", price: 9.99}]
    the price in the body is not exactly ten more than the local price. *)
Lemma put_body_not_always_ten_dearer : ~ putBodyIsTenDearer.
Proof.
  intros H.
  destruct (H [mkProduct 1 "Pen" 9.99%float] 1 (mkProduct 1 "Pen" 9.99%float)
              eq_refl)
    as [r [sent [Hr [Hbody [_ [_ Hten]]]]]].
  rewrite put_body_of_9_99 in Hr. injection Hr as <-.
  cbn [payload] in Hbody. injection Hbody as <-.
  cbn [price] in Hten. vm_compute in Hten. discriminate Hten.
Qed.

(** For every id present in the product list, the body of the PUT request
    is the first product with that id, with its id and name as they are and
    with the price replaced by the binary64 sum of that price and 10. *)
Theorem put_body_is_price_plus_ten_in_binary64 :
  forall (products : list product) (targetId : Z),
    (exists p, In p products /\ p.(id) = targetId) ->
    exists p,
      find (fun p => p.(id) =? targetId) products = Some p
      /\ In p products
      /\ ProductList.updateProductPrice products targetId =
           Some (mkRequest PUT (host ++ "/products/" ++ Js.ofInteger targetId)
                           jsonHeaders
                           (JsonBody (mkProduct p.(id) p.(name)
                                                (p.(price) + 10)%float))).
Proof.
  intros products targetId Hin.
  apply find_present in Hin. destruct Hin as [p [Hfind [Hin _]]].
  exists p. split; [exact Hfind|]. split; [exact Hin|].
  unfold ProductList.updateProductPrice. now rewrite Hfind.
Qed.

Lemma put_body_is_price_plus_ten_in_binary64_witness :
  exists p,
    find (fun p => p.(id) =? 2)
         [mkProduct 1 "Pen" 2%float; mkProduct 2 "Ink" 2.5%float] = Some p
    /\ In p [mkProduct 1 "Pen" 2%float; mkProduct 2 "Ink" 2.5%float]
    /\ ProductList.updateProductPrice
         [mkProduct 1 "Pen" 2%float; mkProduct 2 "Ink" 2.5%float] 2 =
         Some (mkRequest PUT (host ++ "/products/" ++ Js.ofInteger 2)
                         jsonHeaders
                         (JsonBody (mkProduct p.(id) p.(name)
                                              (p.(price) + 10)%float))).
Proof.
  apply (put_body_is_price_plus_ten_in_binary64
           [mkProduct 1 "Pen" 2%float; mkProduct 2 "Ink" 2.5%float] 2).
  exists (mkProduct 2 "Ink" 2.5%float). split; [simpl; auto | reflexivity].
Defined.

(** ** The message of the form *)

(** C5, as stated, fails: when the POST request resolves with a body that
    is not JSON (an empty 204 reply, an HTML error page), [response.json()]
    rejects inside the [try] and the message is the error one. *)
Lemma message_does_not_follow_fetch : ~ messageFollowsFetch.
Proof.
  intros H.
  destruct (H (Fulfilled true None) AddProductForm.initial) as [_ [Herr _]].
  specialize (Herr eq_refl). discriminate Herr.
Qed.

Lemma message_only_set_by_submit (v : variant) (e : event) (w : world) :
  (step v e w).(addProductForm).(AddProductForm.message)
    = w.(addProductForm).(AddProductForm.message)
  \/ exists n o, e = SettlePlain n o
                 /\ nth_error w.(inflight) n = Some HandleSubmit.
Proof.
  destruct e as [| | | | | | | |n o|n o|n o]; cbn [step];
    try (left; reflexivity);
    try (destruct v; left; reflexivity).
  - destruct (ProductList.updateProductPrice _ _); left; reflexivity.
  - destruct (nth_error (inflight w) n) as [[]|]; left; reflexivity.
  - destruct (nth_error (inflight w) n) as [[]|]; left; reflexivity.
  - destruct (nth_error (inflight w) n) as [[]|] eqn:E;
      try (left; reflexivity).
    right. now exists n, o.
Qed.

(** C5, amended. The submit handler sets the message to
    'Product added successfully!' if and only if the POST request resolves
    and its body parses as JSON, and to 'Error adding product' if and only if
    the request rejects or the body does not parse.  Either way the name and
    price fields and the product list are unchanged, and no other event of
    the page changes the message. *)
Theorem message_follows_fetch_and_json :
  forall (w : world),
    (forall (o : outcome unit) (st : AddProductForm.state),
        let st' := fst (AddProductForm.handleSubmit_settled o st) in
        (st'.(AddProductForm.message) = "Product added successfully!"
         <-> AddProductForm.bodyParsed o = true)
        /\ (st'.(AddProductForm.message) = "Error adding product"
            <-> AddProductForm.bodyParsed o = false)
        /\ st'.(AddProductForm.name) = st.(AddProductForm.name)
        /\ st'.(AddProductForm.price) = st.(AddProductForm.price))
    /\ (forall (o : outcome unit),
           let w' := step AsyncAwait (SettlePlain (List.length w.(inflight)) o)
                          (step AsyncAwait Submit w) in
           w'.(productList) = w.(productList)
           /\ w'.(addProductForm) =
                fst (AddProductForm.handleSubmit_settled o w.(addProductForm)))
    /\ (forall (v : variant) (e : event),
           (step v e w).(addProductForm).(AddProductForm.message)
             = w.(addProductForm).(AddProductForm.message)
           \/ exists n o, e = SettlePlain n o
                          /\ nth_error w.(inflight) n = Some HandleSubmit).
Proof.
  intros w. split; [|split].
  - intros o st. cbn zeta.
    destruct o as [|ok [u|]]; cbn; repeat split; intros; congruence.
  - intros o. cbn zeta.
    world_simpl. rewrite nth_error_last. world_simpl. auto.
  - intros v e. apply message_only_set_by_submit.
Qed.

(** ** The requests the page sends *)

Lemma step_network (v : variant) (e : event) (w : world) :
  (step v e w).(network) = w.(network)
  \/ (settles e = false
      /\ exists r ep, (step v e w).(network) = (w.(network) ++ [r])%list
                      /\ targets r ep).
Proof.
  destruct e as [| |p|i|i| | | |n o|n o|n o]; cbn [step settles].
  - right. split; [reflexivity|].
    exists ProductList.fetchData, GetProducts. split; reflexivity.
  - now left.
  - right. split; [reflexivity|].
    exists (ProductList.addToCart p), PostCart. split; reflexivity.
  - right. split; [reflexivity|].
    exists (ProductList.removeFromCart i), (DeleteCartItem i). split; reflexivity.
  - unfold ProductList.updateProductPrice.
    destruct (find _ _) as [q|]; [|now left].
    right. split; [reflexivity|].
    eexists; exists (PutProduct i). split; reflexivity.
  - destruct v; now left.
  - destruct v; now left.
  - destruct v; [|now left].
    right. split; [reflexivity|].
    exists (AddProductForm.handleSubmit (addProductForm w)), PostAddProduct.
    split; reflexivity.
  - destruct (nth_error (inflight w) n) as [[]|]; now left.
  - destruct (nth_error (inflight w) n) as [[]|]; now left.
  - destruct (nth_error (inflight w) n) as [[]|]; now left.
Qed.

Lemma step_keeps_known_endpoints (v : variant) (e : event) (w : world) :
  onlyKnownEndpoints w -> onlyKnownEndpoints (step v e w).
Proof.
  unfold onlyKnownEndpoints. intros H.
  destruct (step_network v e w) as [-> | [_ [r [ep [-> Hr]]]]]; [exact H|].
  apply Forall_app. split; [exact H|].
  constructor; [now exists ep | constructor].
Qed.

Lemma run_keeps_known_endpoints (v : variant) (events : list event) :
  forall w, onlyKnownEndpoints w -> onlyKnownEndpoints (run v events w).
Proof.
  induction events as [|e events IH]; intros w H; simpl.
  - exact H.
  - apply IH. now apply step_keeps_known_endpoints.
Qed.

Lemma run_app (v : variant) (first rest : list event) (w : world) :
  run v (first ++ rest) w = run v rest (run v first w).
Proof. unfold run. apply fold_left_app. Qed.

(** The page of src/App.jsx once the product list [l] has arrived. *)
Lemma run_loaded (l : list product) :
  run AsyncAwait [Mount; SettleList 0 (Fulfilled true (Some l))]
      (boot AsyncAwait)
  = mkWorld (ProductList.mkState l [] "" false) AddProductForm.initial
            [] [ProductList.fetchData] [].
Proof. reflexivity. Qed.

Lemma updateProductPrice_single (p : product) :
  ProductList.updateProductPrice [p] p.(id) =
    Some (mkRequest PUT (host ++ "/products/" ++ Js.ofInteger p.(id))
                    jsonHeaders
                    (JsonBody (withPrice p (p.(price) + 10)%float))).
Proof.
  unfold ProductList.updateProductPrice. cbn [find].
  now rewrite Z.eqb_refl.
Qed.

(** C6. Every request the page ever sends goes, with the stated method, to
    one of the five endpoints on the example host -- GET /products,
    POST /cart, DELETE /cart/{id}, PUT /products/{id}, POST /add-product --
    and each of the five is sent in some run of the page of src/App.jsx. *)
Theorem requests_target_the_five_endpoints :
  (forall (v : variant) (events : list event),
      onlyKnownEndpoints (run v events (boot v)))
  /\ (forall ep : endpoint,
         exists events r,
           In r (run AsyncAwait events (boot AsyncAwait)).(network)
           /\ targets r ep).
Proof.
  split.
  - intros v events. apply run_keeps_known_endpoints. constructor.
  - intros ep.
    pose (loaded p := [Mount; SettleList 0 (Fulfilled true (Some [p]))]).
    destruct ep as [| |i|i|].
    + exists [Mount], ProductList.fetchData.
      split; [simpl; auto | reflexivity].
    + exists (loaded (mkProduct 1 "Pen" 2%float)
              ++ [ClickAddToCart (mkProduct 1 "Pen" 2%float)])%list,
             (ProductList.addToCart (mkProduct 1 "Pen" 2%float)).
      split; [simpl; auto | reflexivity].
    + exists (loaded (mkProduct i "Pen" 2%float)
              ++ [ClickAddToCart (mkProduct i "Pen" 2%float);
                  SettleItem 0 (Fulfilled true (Some (mkProduct i "Pen" 2%float)));
                  ClickRemove i])%list,
             (ProductList.removeFromCart i).
      split; [|reflexivity].
      unfold loaded. rewrite run_app, run_loaded.
      cbn [run fold_left]. world_simpl. cbn [nth_error app]. world_simpl.
      apply in_or_app. right. left. reflexivity.
    + exists (loaded (mkProduct i "Pen" 2%float) ++ [ClickUpdatePrice i])%list.
      exists (mkRequest PUT (host ++ "/products/" ++ Js.ofInteger i) jsonHeaders
                        (JsonBody (mkProduct i "Pen" 12%float))).
      split; [|reflexivity].
      unfold loaded. rewrite run_app, run_loaded.
      cbn [run fold_left]. world_simpl. cbn [ProductList.products].
      pose proof (updateProductPrice_single (mkProduct i "Pen" 2%float)) as E.
      cbn [id] in E. rewrite E.
      world_simpl. right. left. reflexivity.
    + exists [TypeName "Pen"; TypePrice "2"; Submit].
      exists (AddProductForm.handleSubmit
                (AddProductForm.mkState "Pen" "2" "")).
      split; [simpl; auto | reflexivity].
Qed.

(** ** One request per call, no retry, no coordination *)

Lemma step_sends_at_most_one (v : variant) (e : event) (w : world) :
  exists sent,
    (step v e w).(network) = (w.(network) ++ sent)%list
    /\ if settles e then sent = [] else (List.length sent <= 1)%nat.
Proof.
  destruct (step_network v e w) as [E | [Hs [r [ep [E _]]]]].
  - exists []. rewrite app_nil_r. split; [exact E|].
    destruct (settles e); [reflexivity | simpl; lia].
  - exists [r]. split; [exact E|]. rewrite Hs. simpl. lia.
Qed.

Lemma settle_consumes_its_request (v : variant) (w : world) (n : nat)
      (k : pending) (e : event) :
  nth_error w.(inflight) n = Some k ->
  settlesWith k n e ->
  (step v e w).(inflight) = without n w.(inflight).
Proof.
  intros Hn He.
  destruct k, e; cbn [settlesWith] in He; try contradiction; subst;
    cbn [step]; rewrite Hn; reflexivity.
Qed.

Lemma settle_is_local (v : variant) (k : pending) (n : nat) (e : event) :
  settlesWith k n e ->
  exists (f : ProductList.state -> ProductList.state)
         (g : AddProductForm.state -> AddProductForm.state),
    forall w, nth_error w.(inflight) n = Some k ->
              (step v e w).(productList) = f w.(productList)
              /\ (step v e w).(addProductForm) = g w.(addProductForm).
Proof.
  intros He.
  destruct k as [|cart|cart i|products i|], e as [| | | | | | | |m o|m o|m o];
    cbn [settlesWith] in He; try contradiction; subst.
  - exists (fun st => fst (ProductList.fetchData_settled v o st)), (fun st => st).
    intros w Hn. cbn [step]. rewrite Hn. split; reflexivity.
  - exists (fun st => fst (ProductList.addToCart_settled cart o st)), (fun st => st).
    intros w Hn. cbn [step]. rewrite Hn. split; reflexivity.
  - exists (fun st => fst (ProductList.removeFromCart_settled v cart i o st)),
           (fun st => st).
    intros w Hn. cbn [step]. rewrite Hn. split; reflexivity.
  - exists (fun st => fst (ProductList.updateProductPrice_settled products i o st)),
           (fun st => st).
    intros w Hn. cbn [step]. rewrite Hn. split; reflexivity.
  - exists (fun st => st), (fun st => fst (AddProductForm.handleSubmit_settled o st)).
    intros w Hn. cbn [step]. rewrite Hn. split; reflexivity.
Qed.

(** C7. Every asynchronous operation is single-shot: one turn of the event
    loop -- the fetch effect, a click on one of the three buttons, the
    submit, or a response -- sends at most one request, and a response,
    rejected or not, sends none, so nothing is retried.  Requests in flight
    are not coordinated: any of them can settle whatever else is in flight,
    doing so removes that request alone, and what it does to the page is a
    function of the two component states fixed by its own closure and
    outcome. *)
Theorem requests_are_single_shot_and_uncoordinated :
  (forall (v : variant) (e : event) (w : world),
      exists sent,
        (step v e w).(network) = (w.(network) ++ sent)%list
        /\ if settles e then sent = [] else (List.length sent <= 1)%nat)
  /\ (forall (v : variant) (w : world) (n : nat) (k : pending) (e : event),
         nth_error w.(inflight) n = Some k ->
         settlesWith k n e ->
         (step v e w).(inflight) = without n w.(inflight))
  /\ (forall (v : variant) (k : pending) (n : nat) (e : event),
         settlesWith k n e ->
         exists (f : ProductList.state -> ProductList.state)
                (g : AddProductForm.state -> AddProductForm.state),
           forall w, nth_error w.(inflight) n = Some k ->
                     (step v e w).(productList) = f w.(productList)
                     /\ (step v e w).(addProductForm) = g w.(addProductForm)).
Proof.
  split; [|split].
  - exact step_sends_at_most_one.
  - exact settle_consumes_its_request.
  - exact settle_is_local.
Qed.

(** A rejected DELETE is not sent again: the log of requests still holds
    the one request, and nothing is in flight. *)
Example rejected_delete_is_not_retried :
  let w := run PromiseChain [ClickRemove 4; SettlePlain 0 Rejected]
               (boot PromiseChain) in
  w.(network) = [ProductList.removeFromCart 4] /\ w.(inflight) = []
  /\ w.(console) = ["Error removing from cart:"].
Proof. repeat split. Qed.

(** ** What is on the screen *)

Lemma Forall_without {A : Type} (P : A -> Prop) (l : list A) :
  Forall P l -> forall n, Forall P (without n l).
Proof.
  induction 1 as [|x l Hx Hl IH]; intros n.
  - unfold without. rewrite firstn_nil, skipn_nil. constructor.
  - destruct n as [|n].
    + exact Hl.
    + change (Forall P (x :: without n l)). constructor; [exact Hx | apply IH].
Qed.

Lemma Forall_nth_error {A : Type} (P : A -> Prop) (l : list A) n x :
  Forall P l -> nth_error l n = Some x -> P x.
Proof.
  intros H E. apply nth_error_In in E.
  rewrite Forall_forall in H. now apply H.
Qed.

Lemma boot_loadingInvariant (v : variant) : loadingInvariant v (boot v).
Proof.
  split.
  - now intros ->.
  - intros _. split; [reflexivity | constructor].
Qed.

Lemma send_loadingInvariant (v : variant) r k w :
  notUpdate k -> loadingInvariant v w -> loadingInvariant v (send r k w).
Proof.
  intros Hk [Hv Hl]. split; [exact Hv|].
  cbn [send productList inflight]. intros L.
  destruct (Hl L) as [Hp Hf]. split; [exact Hp|].
  apply Forall_app. split; [exact Hf | now constructor].
Qed.

Lemma step_loadingInvariant (v : variant) (e : event) (w : world) :
  loadingInvariant v w -> loadingInvariant v (step v e w).
Proof.
  intros I. pose proof I as [Hv Hl].
  destruct e as [|s|p|i|i|s|s| |n o|n o|n o]; cbn [step].
  - now apply send_loadingInvariant.
  - exact I.
  - now apply send_loadingInvariant.
  - now apply send_loadingInvariant.
  - destruct (ProductList.updateProductPrice _ _) as [r|] eqn:E; [|exact I].
    split; [exact Hv|]. cbn [send productList inflight]. intros L.
    destruct (Hl L) as [Hp _]. rewrite Hp in E. discriminate E.
  - destruct v; exact I.
  - destruct v; exact I.
  - destruct v; [now apply send_loadingInvariant | exact I].
  - destruct (nth_error (inflight w) n) as [[]|] eqn:E; try exact I.
    destruct v.
    + split; [discriminate|].
      destruct o as [|ok [l|]]; cbn; discriminate.
    + specialize (Hv eq_refl). split.
      * intros _. destruct o as [|ok [l|]]; cbn; exact Hv.
      * destruct o as [|ok [l|]]; cbn; intros L; congruence.
  - destruct (nth_error (inflight w) n) as [[|c|c i|ps i|]|] eqn:E; try exact I.
    + split.
      * intros V. destruct o as [|ok [d|]]; cbn; auto.
      * destruct o as [|ok [d|]]; cbn; intros L;
          destruct (Hl L) as [Hp Hf]; (split; [exact Hp|]);
          now apply Forall_without.
    + split.
      * intros V. destruct o as [|ok [d|]]; cbn; auto.
      * assert (N : ProductList.loading (productList w) = false).
        { destruct (ProductList.loading (productList w)); [|reflexivity].
          destruct (Hl eq_refl) as [_ Hf].
          destruct (Forall_nth_error _ _ _ _ Hf E). }
        destruct o as [|ok [d|]]; cbn; intros L; congruence.
  - destruct (nth_error (inflight w) n) as [[|c|c i|ps i|]|] eqn:E; try exact I.
    + split.
      * intros V. destruct o as [|[] j]; cbn; auto.
      * destruct o as [|[] j]; cbn; intros L;
          destruct (Hl L) as [Hp Hf]; (split; [exact Hp|]);
          now apply Forall_without.
    + split; [exact Hv|].
      cbn [resumeForm productList inflight]. intros L.
      destruct (Hl L) as [Hp Hf]. split; [exact Hp|].
      now apply Forall_without.
Qed.

Lemma reachable_loadingInvariant (v : variant) (events : list event) :
  loadingInvariant v (run v events (boot v)).
Proof.
  generalize (boot_loadingInvariant v). generalize (boot v).
  induction events as [|e events IH]; intros w I; simpl.
  - exact I.
  - apply IH. now apply step_loadingInvariant.
Qed.

(** In every world the page can reach, the rows on the screen are the
    filtered products: the early [Loading products...] return only ever
    hides an empty list. *)
Lemma displayed_is_filtered (v : variant) (events : list event) :
  let st := (run v events (boot v)).(productList) in
  ProductList.displayedProducts st =
    filteredProducts st.(ProductList.products) st.(ProductList.search).
Proof.
  cbn zeta.
  destruct (reachable_loadingInvariant v events) as [_ Hl].
  unfold ProductList.displayedProducts, ProductList.render.
  destruct (ProductList.loading _) eqn:L; [|reflexivity].
  destruct (Hl eq_refl) as [-> _]. reflexivity.
Qed.

(** C1. For every product list and every search string, [filteredProducts]
    is the input list filtered, in order, by the case-insensitive substring
    match: a product is kept if and only if its lower-cased name contains
    the lower-cased search string; and in every world either page can reach,
    the products on the screen are [filteredProducts] of the products and
    the search string of the state. *)
Theorem filteredProducts_case_insensitive_match :
  (forall (products : list product) (search : string),
    kept (fun p => Js.Contains (Js.toLowerCase (name p)) (Js.toLowerCase search))
         products (filteredProducts products search)
    /\ forall p, In p (filteredProducts products search) <->
                 In p products
                 /\ Js.Contains (Js.toLowerCase (name p)) (Js.toLowerCase search))
    /\ (forall (v : variant) (events : list event),
           let st := (run v events (boot v)).(productList) in
           ProductList.displayedProducts st =
             filteredProducts st.(ProductList.products) st.(ProductList.search)).
Proof.
  split; [|exact displayed_is_filtered].
  intros products search.
  assert (K : kept (fun p => Js.Contains (Js.toLowerCase (name p))
                                         (Js.toLowerCase search))
                   products (filteredProducts products search)).
  { unfold filteredProducts. apply kept_filter.
    intros x. apply includes_spec. }
  split; [exact K | exact (kept_In _ _ _ K)].
Qed.


(** ** More about the search filter *)

Lemma string_app_assoc (a b c : string) : (a ++ b) ++ c = a ++ b ++ c.
Proof.
  induction a as [|x a IH]; simpl; [reflexivity | now rewrite IH].
Qed.

Lemma lowerUnit_idempotent (c : ascii) :
  Js.lowerUnit (Js.lowerUnit c) = Js.lowerUnit c.
Proof.
  destruct c as [[] [] [] [] [] [] [] []]; reflexivity.
Qed.

Lemma toLowerCase_idempotent (s : string) :
  Js.toLowerCase (Js.toLowerCase s) = Js.toLowerCase s.
Proof.
  induction s as [|c s IH]; simpl; [reflexivity|].
  now rewrite lowerUnit_idempotent, IH.
Qed.

Lemma Contains_refl (s : string) : Js.Contains s s.
Proof.
  exists "", "". simpl.
  induction s as [|c s IH]; simpl; [reflexivity | now rewrite <- IH].
Qed.

Lemma Contains_trans (a b c : string) :
  Js.Contains a b -> Js.Contains b c -> Js.Contains a c.
Proof.
  intros [p [q ->]] [p' [q' ->]].
  exists (p ++ p'), (q' ++ q).
  now rewrite !string_app_assoc.
Qed.

Lemma filter_filter_implied {A : Type} (f g : A -> bool) (l : list A) :
  (forall x, f x = true -> g x = true) ->
  filter f (filter g l) = filter f l.
Proof.
  intros H. induction l as [|x l IH]; simpl; [reflexivity|].
  destruct (g x) eqn:G; simpl.
  - now rewrite IH.
  - destruct (f x) eqn:F; [|exact IH].
    apply H in F. congruence.
Qed.

(** X1. A search that contains an earlier one narrows the list: when the
    lower-cased search string contains the lower-cased earlier one,
    filtering by it gives the same rows as filtering the earlier result
    again, so no product comes back that the earlier search had dropped. *)
Theorem filteredProducts_narrows :
  forall (products : list product) (longer shorter : string),
    Js.Contains (Js.toLowerCase longer) (Js.toLowerCase shorter) ->
    filteredProducts products longer =
      filteredProducts (filteredProducts products shorter) longer
    /\ incl (filteredProducts products longer)
            (filteredProducts products shorter).
Proof.
  intros products longer shorter H.
  assert (E : filteredProducts products longer =
              filteredProducts (filteredProducts products shorter) longer).
  { unfold filteredProducts. symmetry. apply filter_filter_implied.
    intros x Hx. apply includes_spec. apply includes_spec in Hx.
    eapply Contains_trans; [exact Hx | exact H]. }
  split; [exact E|].
  rewrite E. unfold filteredProducts at 1.
  intros x Hx. now apply filter_In in Hx.
Qed.

Lemma filteredProducts_narrows_witness :
  let products := [mkProduct 1 "Green Apple" 2%float;
                   mkProduct 2 "Grape" 1%float;
                   mkProduct 3 "Banana" 3%float] in
  filteredProducts products "GRA" =
    filteredProducts (filteredProducts products "gr") "GRA"
  /\ incl (filteredProducts products "GRA") (filteredProducts products "gr").
Proof.
  cbn zeta.
  apply (filteredProducts_narrows
           [mkProduct 1 "Green Apple" 2%float;
            mkProduct 2 "Grape" 1%float;
            mkProduct 3 "Banana" 3%float]
           "GRA" "gr").
  exists "", "a". reflexivity.
Defined.

(** X2. The filter ignores the case of the search string and of the names:
    lower-casing the search string changes nothing, and a search string
    that equals a product's name up to case finds that product. *)
Theorem filteredProducts_ignores_search_case :
  forall (products : list product) (search : string),
    filteredProducts products (Js.toLowerCase search) =
      filteredProducts products search
    /\ forall p, In p products ->
                 Js.toLowerCase search = Js.toLowerCase p.(name) ->
                 In p (filteredProducts products search).
Proof.
  intros products search. split.
  - unfold filteredProducts. now rewrite toLowerCase_idempotent.
  - intros p Hin E. unfold filteredProducts. apply filter_In.
    split; [exact Hin|]. rewrite E.
    apply includes_spec, Contains_refl.
Qed.

(** ** More about price updates *)

Lemma shape_reprice (targetId : Z) (x : float) (products : list product) :
  shape (map (fun product =>
                if product.(id) =? targetId
                then withPrice product x
                else product)
             products)
  = shape products.
Proof.
  unfold shape. rewrite map_map. apply map_ext.
  intros p. now destruct (p.(id) =? targetId).
Qed.

Lemma filteredProducts_reprice (targetId : Z) (x : float)
      (products : list product) (search : string) :
  filteredProducts
    (map (fun product =>
            if product.(id) =? targetId then withPrice product x else product)
         products)
    search
  = map (fun product =>
           if product.(id) =? targetId then withPrice product x else product)
        (filteredProducts products search).
Proof.
  unfold filteredProducts.
  induction products as [|p l IH]; simpl; [reflexivity|].
  replace (name (if p.(id) =? targetId then withPrice p x else p))
    with p.(name) by now destruct (p.(id) =? targetId).
  destruct (Js.includes _ _); simpl; now rewrite IH.
Qed.

Lemma step_keeps_updatesMatch (v : variant) (e : event) (w : world) :
  updatesMatch w -> noReload e ->
  updatesMatch (step v e w)
  /\ shape (step v e w).(productList).(ProductList.products)
     = shape w.(productList).(ProductList.products).
Proof.
  unfold updatesMatch. intros J He.
  destruct e as [|s|p|i|i|s|s| |n o|n o|n o]; cbn [step].
  - split; [|reflexivity]. cbn [send inflight productList].
    apply Forall_app. split; [exact J | now constructor].
  - split; [exact J | reflexivity].
  - split; [|reflexivity]. cbn [send inflight productList].
    apply Forall_app. split; [exact J | now constructor].
  - split; [|reflexivity]. cbn [send inflight productList].
    apply Forall_app. split; [exact J | now constructor].
  - destruct (ProductList.updateProductPrice _ _) as [r|];
      [|split; [exact J | reflexivity]].
    split; [|reflexivity]. cbn [send inflight productList].
    apply Forall_app. split; [exact J | now constructor].
  - destruct v; (split; [exact J | reflexivity]).
  - destruct v; (split; [exact J | reflexivity]).
  - destruct v; [|split; [exact J | reflexivity]].
    split; [|reflexivity]. cbn [send inflight productList].
    apply Forall_app. split; [exact J | now constructor].
  - destruct (nth_error (inflight w) n) as [[]|] eqn:E;
      try (split; [exact J | reflexivity]).
    assert (P : ProductList.products
                  (fst (ProductList.fetchData_settled v o (productList w)))
                = ProductList.products (productList w)).
    { destruct v, o as [|ok [l|]]; try reflexivity; destruct He. }
    cbn [resumeList inflight productList]. rewrite P.
    split; [now apply Forall_without | reflexivity].
  - destruct (nth_error (inflight w) n) as [[|c|c i|ps i|]|] eqn:E;
      try (split; [exact J | reflexivity]).
    + assert (P : ProductList.products
                    (fst (ProductList.addToCart_settled c o (productList w)))
                  = ProductList.products (productList w)).
      { destruct o as [|ok [d|]]; reflexivity. }
      cbn [resumeList inflight productList]. rewrite P.
      split; [now apply Forall_without | reflexivity].
    + assert (P : shape (ProductList.products
                           (fst (ProductList.updateProductPrice_settled
                                   ps i o (productList w))))
                  = shape (ProductList.products (productList w))).
      { pose proof (Forall_nth_error _ _ _ _ J E) as S. cbn beta iota in S.
        destruct o as [|ok [d|]]; try reflexivity.
        cbn [ProductList.updateProductPrice_settled fst
             ProductList.setProducts ProductList.products].
        now rewrite shape_reprice. }
      cbn [resumeList inflight productList]. rewrite P.
      split; [now apply Forall_without | reflexivity].
  - destruct (nth_error (inflight w) n) as [[|c|c i|ps i|]|] eqn:E;
      try (split; [exact J | reflexivity]).
    + assert (P : ProductList.products
                    (fst (ProductList.removeFromCart_settled
                            v c i o (productList w)))
                  = ProductList.products (productList w)).
      { destruct o as [|[] j]; reflexivity. }
      cbn [resumeList inflight productList]. rewrite P.
      split; [now apply Forall_without | reflexivity].
    + cbn [resumeForm inflight productList].
      split; [now apply Forall_without | reflexivity].
Qed.

(** X4. Price updates never add, drop, reorder or rename a product,
    however their responses interleave with each other and with the rest of
    the page: from a world whose updates in flight closed over the current
    rows, every run in which no new product list arrives ends with the same
    ids and names in the same order. *)
Theorem rows_survive_every_interleaving :
  forall (v : variant) (events : list event) (w : world),
    updatesMatch w ->
    Forall noReload events ->
    shape (run v events w).(productList).(ProductList.products)
    = shape w.(productList).(ProductList.products)
    /\ updatesMatch (run v events w).
Proof.
  intros v events. induction events as [|e events IH]; intros w J H.
  - split; [reflexivity | exact J].
  - inversion H as [|? ? He Hrest]; subst.
    destruct (step_keeps_updatesMatch v e w J He) as [J' S].
    destruct (IH (step v e w) J' Hrest) as [S' J''].
    cbn [run fold_left]. fold (run v events (step v e w)).
    split; [now rewrite S', S | exact J''].
Qed.

Lemma rows_survive_every_interleaving_witness :
  let pen := mkProduct 1 "Pen" 2%float in
  let ink := mkProduct 2 "Ink" 3%float in
  let w := mkWorld (ProductList.mkState [pen; ink] [] "" false)
                   AddProductForm.initial [] [] [] in
  let events := [ClickUpdatePrice 1; ClickUpdatePrice 2;
                 SettleItem 1 (Fulfilled true (Some (mkProduct 2 "Ink" 13%float)));
                 SettleItem 0 (Fulfilled true (Some (mkProduct 1 "Pen" 12%float)))] in
  shape (run AsyncAwait events w).(productList).(ProductList.products)
  = shape [pen; ink]
  /\ updatesMatch (run AsyncAwait events w).
Proof.
  cbn zeta.
  apply (rows_survive_every_interleaving
           AsyncAwait
           [ClickUpdatePrice 1; ClickUpdatePrice 2;
            SettleItem 1 (Fulfilled true (Some (mkProduct 2 "Ink" 13%float)));
            SettleItem 0 (Fulfilled true (Some (mkProduct 1 "Pen" 12%float)))]
           (mkWorld (ProductList.mkState
                       [mkProduct 1 "Pen" 2%float; mkProduct 2 "Ink" 3%float]
                       [] "" false)
                    AddProductForm.initial [] [] [])).
  - constructor.
  - repeat constructor.
Defined.

(** ** More about the cart *)

Lemma nth_error_middle {A : Type} (l r : list A) (k : A) :
  nth_error (l ++ k :: r) (List.length l) = Some k.
Proof.
  rewrite nth_error_app2 by lia. now rewrite Nat.sub_diag.
Qed.

Lemma without_middle {A : Type} (l r : list A) (k : A) :
  without (List.length l) (l ++ k :: r) = (l ++ r)%list.
Proof.
  unfold without.
  rewrite firstn_app, Nat.sub_diag, firstn_all, firstn_O, app_nil_r.
  rewrite skipn_app, skipn_all2 by lia.
  replace (S (List.length l) - List.length l)%nat with 1%nat by lia.
  reflexivity.
Qed.

(** X5. Overlapping [addToCart] calls are not merged: when two clicks are
    made before either response arrives, both continuations extend the cart
    of the render the clicks were made in, and the one that settles last
    overwrites the other, in either order of arrival. *)
Theorem overlapping_addToCart_last_response_wins :
  forall (v : variant) (w : world) (p1 p2 : product) (ok1 ok2 : bool)
         (d1 d2 : product),
    let n := List.length w.(inflight) in
    let clicked := step v (ClickAddToCart p2) (step v (ClickAddToCart p1) w) in
    let cart := w.(productList).(ProductList.cart) in
    (run v [SettleItem n (Fulfilled ok1 (Some d1));
            SettleItem n (Fulfilled ok2 (Some d2))] clicked)
      .(productList).(ProductList.cart) = (cart ++ [d2])%list
    /\ (run v [SettleItem (S n) (Fulfilled ok2 (Some d2));
               SettleItem n (Fulfilled ok1 (Some d1))] clicked)
         .(productList).(ProductList.cart) = (cart ++ [d1])%list.
Proof.
  intros v w p1 p2 ok1 ok2 d1 d2. cbn zeta.
  cbn [run fold_left]. split.
  - world_simpl. rewrite <- app_assoc. cbn [app].
    rewrite nth_error_middle. world_simpl.
    rewrite <- ?app_assoc. cbn [app]. rewrite without_middle.
    rewrite nth_error_last. reflexivity.
  - world_simpl.
    replace (S (List.length (inflight w)))
      with (List.length (inflight w ++ [AddToCart (ProductList.cart (productList w))]))
      by (rewrite length_app; simpl; lia).
    rewrite nth_error_last. world_simpl. rewrite without_last.
    rewrite nth_error_last. reflexivity.
Qed.

Lemma add_then_settle (v : variant) (w : world) (p : product) (ok : bool)
      (d : product) :
  step v (SettleItem (List.length w.(inflight)) (Fulfilled ok (Some d)))
       (step v (ClickAddToCart p) w)
  = mkWorld (ProductList.setCart (w.(productList).(ProductList.cart) ++ [d])
                                 w.(productList))
            w.(addProductForm) w.(inflight)
            (w.(network) ++ [ProductList.addToCart p]) w.(console).
Proof.
  cbn [step send inflight]. rewrite nth_error_last.
  unfold resumeList, send.
  cbn [productList addProductForm inflight network console
       ProductList.addToCart_settled fst snd].
  now rewrite without_last, app_nil_r.
Qed.

Lemma addOneByOne_run (v : variant) (clicks : list (product * product)) :
  forall w,
    run v (addOneByOne (List.length w.(inflight)) clicks) w =
      mkWorld (ProductList.setCart
                 (w.(productList).(ProductList.cart) ++ map snd clicks)
                 w.(productList))
              w.(addProductForm) w.(inflight)
              (w.(network) ++ map (fun c => ProductList.addToCart (fst c)) clicks)
              w.(console).
Proof.
  induction clicks as [|[p d] clicks IH]; intros w.
  - cbn [addOneByOne flat_map run fold_left map].
    rewrite !app_nil_r. now destruct w as [[] ? ? ? ?].
  - cbn [addOneByOne flat_map app run fold_left map fst snd].
    rewrite add_then_settle.
    etransitivity; [apply (IH (mkWorld _ _ _ _ _))|].
    cbn [productList addProductForm inflight network console
         ProductList.setCart ProductList.cart ProductList.products
         ProductList.search ProductList.loading].
    now rewrite <- !app_assoc.
Qed.

(** X6. Clicks that are each answered before the next one accumulate: the
    cart grows by the returned items, in the order of the clicks, one POST
    is sent per click with the clicked product as its body, and nothing is
    left in flight. *)
Theorem addToCart_one_by_one_accumulates :
  forall (v : variant) (clicks : list (product * product)) (w : world),
    let w' := run v (addOneByOne (List.length w.(inflight)) clicks) w in
    w'.(productList).(ProductList.cart) =
      (w.(productList).(ProductList.cart) ++ map snd clicks)%list
    /\ w'.(network) =
         (w.(network) ++ map (fun c => ProductList.addToCart (fst c)) clicks)%list
    /\ w'.(inflight) = w.(inflight)
    /\ w'.(productList).(ProductList.products) =
         w.(productList).(ProductList.products).
Proof.
  intros v clicks w. cbn zeta. rewrite addOneByOne_run.
  repeat split.
Qed.

Lemma remove_then_settle (v : variant) (w : world) (targetId : Z)
      (json : option unit) :
  step v (SettlePlain (List.length w.(inflight)) (Fulfilled true json))
       (step v (ClickRemove targetId) w)
  = mkWorld (ProductList.setCart
               (filter (fun item => negb (item.(id) =? targetId))
                       w.(productList).(ProductList.cart))
               w.(productList))
            w.(addProductForm) w.(inflight)
            (w.(network) ++ [ProductList.removeFromCart targetId]) w.(console).
Proof.
  cbn [step send inflight]. rewrite nth_error_last.
  unfold resumeList, send.
  cbn [productList addProductForm inflight network console
       ProductList.removeFromCart_settled fst snd].
  now rewrite without_last, app_nil_r.
Qed.

Lemma filter_other_ids_all (targetId : Z) (cart : list product) :
  (forall item, In item cart -> item.(id) <> targetId) ->
  filter (fun item => negb (item.(id) =? targetId)) cart = cart.
Proof.
  intros H. apply forallb_filter_id. apply forallb_forall.
  intros x Hx. apply negb_true_iff, Z.eqb_neq. now apply H.
Qed.

(** X7. Adding an item and then removing it by its id gives the cart back:
    when no item of the cart has the id of the returned item, the click on
    Add to Cart, its response, the click on Remove for that item and an ok
    response leave the cart as it was. *)
Theorem add_then_remove_restores_cart :
  forall (v : variant) (w : world) (p : product) (ok : bool) (d : product)
         (json : option unit),
    (forall item, In item w.(productList).(ProductList.cart) ->
                  item.(id) <> d.(id)) ->
    let n := List.length w.(inflight) in
    (run v [ClickAddToCart p; SettleItem n (Fulfilled ok (Some d));
            ClickRemove d.(id); SettlePlain n (Fulfilled true json)] w)
      .(productList) = w.(productList).
Proof.
  intros v w p ok d json H. cbn zeta. cbn [run fold_left].
  rewrite add_then_settle.
  match goal with
  | |- context [step v (SettlePlain _ _) (step v _ ?w1)] =>
      change (List.length (inflight w)) with (List.length (inflight w1));
      rewrite (remove_then_settle v w1)
  end.
  cbn [productList ProductList.setCart ProductList.cart ProductList.products
       ProductList.search ProductList.loading].
  rewrite filter_app. cbn [filter]. rewrite Z.eqb_refl. cbn [negb].
  rewrite app_nil_r, filter_other_ids_all by exact H.
  now destruct (productList w).
Qed.

Lemma add_then_remove_restores_cart_witness :
  let pen := mkProduct 1 "Pen" 2%float in
  let ink := mkProduct 2 "Ink" 3%float in
  let w := mkWorld (ProductList.mkState [pen; ink] [pen] "" false)
                   AddProductForm.initial [] [] [] in
  (run AsyncAwait
       [ClickAddToCart ink; SettleItem 0 (Fulfilled true (Some ink));
        ClickRemove 2; SettlePlain 0 (Fulfilled true None)] w)
    .(productList) = w.(productList).
Proof.
  cbn zeta.
  apply (add_then_remove_restores_cart
           AsyncAwait
           (mkWorld (ProductList.mkState
                       [mkProduct 1 "Pen" 2%float; mkProduct 2 "Ink" 3%float]
                       [mkProduct 1 "Pen" 2%float] "" false)
                    AddProductForm.initial [] [] [])
           (mkProduct 2 "Ink" 3%float) true (mkProduct 2 "Ink" 3%float) None).
  simpl. intros item [<-|[]]. simpl. discriminate.
Defined.

(** X8. Remove works by id, not by row: an ok removal deletes every item
    with the id, so after the same item was added twice one Remove click
    takes both copies out, and a second removal of the same id changes
    nothing. *)
Theorem removeFromCart_deletes_every_copy :
  forall (v : variant) (w : world) (targetId : Z) (json json' : option unit),
    let n := List.length w.(inflight) in
    let w1 := step v (SettlePlain n (Fulfilled true json))
                   (step v (ClickRemove targetId) w) in
    let w2 := step v (SettlePlain n (Fulfilled true json'))
                   (step v (ClickRemove targetId) w1) in
    Forall (fun item => item.(id) <> targetId)
           w1.(productList).(ProductList.cart)
    /\ (List.length w1.(productList).(ProductList.cart)
        + List.length (filter (fun item => (item.(id) =? targetId)%Z)
                              w.(productList).(ProductList.cart))
        = List.length w.(productList).(ProductList.cart))%nat
    /\ w2.(productList) = w1.(productList).
Proof.
  intros v w targetId json json'. cbn zeta.
  rewrite remove_then_settle.
  match goal with
  | |- context [step v (SettlePlain _ (Fulfilled true json')) (step v _ ?w1)] =>
      change (List.length (inflight w)) with (List.length (inflight w1));
      rewrite (remove_then_settle v w1)
  end.
  cbn [productList ProductList.setCart ProductList.cart ProductList.products
       ProductList.search ProductList.loading].
  split; [|split].
  - apply Forall_forall. intros x Hx. apply filter_In in Hx.
    destruct Hx as [_ Hx]. now apply negb_true_iff, Z.eqb_neq in Hx.
  - induction (ProductList.cart (productList w)) as [|x l IH]; simpl;
      [reflexivity|].
    destruct (x.(id) =? targetId); simpl; lia.
  - unfold ProductList.setCart.
    cbn [ProductList.cart ProductList.products ProductList.search
         ProductList.loading].
    f_equal. apply filter_other_ids_all.
    intros x Hx. apply filter_In in Hx.
    destruct Hx as [_ Hx]. now apply negb_true_iff, Z.eqb_neq in Hx.
Qed.

(** ** Overlapping price updates *)

Lemma updateProductPrice_present (products : list product) (targetId : Z) :
  (exists p, In p products /\ p.(id) = targetId) ->
  exists r, ProductList.updateProductPrice products targetId = Some r.
Proof.
  intros H. apply find_present in H. destruct H as [p [Hfind _]].
  unfold ProductList.updateProductPrice. rewrite Hfind. eauto.
Qed.

(** X9. Overlapping price updates are not merged either: when Update Price
    is clicked for two products before either response arrives, the
    response that settles last rewrites the product list of the render the
    clicks were made in, so the price the first response had set is lost. *)
Theorem overlapping_price_updates_lose_the_first :
  forall (v : variant) (w : world) (i j : Z) (oki okj : bool)
         (di dj : product),
    (exists p, In p w.(productList).(ProductList.products) /\ p.(id) = i) ->
    (exists p, In p w.(productList).(ProductList.products) /\ p.(id) = j) ->
    let n := List.length w.(inflight) in
    (run v [ClickUpdatePrice i; ClickUpdatePrice j;
            SettleItem n (Fulfilled oki (Some di));
            SettleItem n (Fulfilled okj (Some dj))] w)
      .(productList).(ProductList.products)
    = map (fun product =>
             if product.(id) =? j
             then withPrice product dj.(price)
             else product)
          w.(productList).(ProductList.products).
Proof.
  intros v w i j oki okj di dj Hi Hj. cbn zeta.
  apply updateProductPrice_present in Hi, Hj.
  destruct Hi as [ri Hi], Hj as [rj Hj].
  cbn [run fold_left]. cbn [step]. rewrite Hi.
  cbn [send productList]. rewrite Hj.
  unfold send. cbn [inflight productList].
  rewrite <- app_assoc. cbn [app].
  rewrite nth_error_middle.
  unfold resumeList. cbn [inflight productList].
  rewrite without_middle, nth_error_last.
  reflexivity.
Qed.

Lemma overlapping_price_updates_lose_the_first_witness :
  let pen := mkProduct 1 "Pen" 2%float in
  let ink := mkProduct 2 "Ink" 3%float in
  let w := mkWorld (ProductList.mkState [pen; ink] [] "" false)
                   AddProductForm.initial [] [] [] in
  (run AsyncAwait
       [ClickUpdatePrice 1; ClickUpdatePrice 2;
        SettleItem 0 (Fulfilled true (Some (mkProduct 1 "Pen" 12%float)));
        SettleItem 0 (Fulfilled true (Some (mkProduct 2 "Ink" 13%float)))] w)
    .(productList).(ProductList.products)
  = [pen; mkProduct 2 "Ink" 13%float].
Proof.
  cbn zeta.
  apply (overlapping_price_updates_lose_the_first
           AsyncAwait
           (mkWorld (ProductList.mkState
                       [mkProduct 1 "Pen" 2%float; mkProduct 2 "Ink" 3%float]
                       [] "" false)
                    AddProductForm.initial [] [] [])
           1 2 true true (mkProduct 1 "Pen" 12%float)
           (mkProduct 2 "Ink" 13%float)).
  - exists (mkProduct 1 "Pen" 2%float). split; [simpl; auto | reflexivity].
  - exists (mkProduct 2 "Ink" 3%float). split; [simpl; auto | reflexivity].
Defined.

(** ** The loading flag of useFetch *)

Lemma step_keeps_loading_off (v : variant) (e : event) (w : world) :
  w.(productList).(ProductList.loading) = false ->
  (step v e w).(productList).(ProductList.loading) = false.
Proof.
  intros L.
  destruct e as [|s|p|i|i|s|s| |n o|n o|n o]; cbn [step]; try exact L.
  - destruct (ProductList.updateProductPrice _ _); exact L.
  - destruct v; exact L.
  - destruct v; exact L.
  - destruct v; exact L.
  - destruct (nth_error (inflight w) n) as [[]|]; try exact L.
    destruct v, o as [|ok [l|]]; cbn; auto.
  - destruct (nth_error (inflight w) n) as [[]|]; try exact L;
      destruct o as [|ok [d|]]; cbn; exact L.
  - destruct (nth_error (inflight w) n) as [[]|]; try exact L.
    destruct o as [|[] j]; cbn; exact L.
Qed.

Lemma run_keeps_loading_off (v : variant) (events : list event) :
  forall w, w.(productList).(ProductList.loading) = false ->
            (run v events w).(productList).(ProductList.loading) = false.
Proof.
  induction events as [|e events IH]; intros w L; [exact L|].
  apply (IH (step v e w)). now apply step_keeps_loading_off.
Qed.

(** X10. In src/App.jsx the loading indicator goes away whatever the fetch
    does and never comes back: once the request of the hook has settled --
    with a product list, with a body that is not JSON, or rejected -- the
    page is rendered instead of [Loading products...] after every further
    run of events. *)
Theorem loading_ends_when_the_fetch_settles :
  forall (events : list event) (w : world) (n : nat)
         (o : outcome (list product)),
    nth_error w.(inflight) n = Some FetchData ->
    let w' := run AsyncAwait (SettleList n o :: events) w in
    w'.(productList).(ProductList.loading) = false
    /\ ProductList.render w'.(productList) =
         ProductList.Page
           (filteredProducts w'.(productList).(ProductList.products)
                             w'.(productList).(ProductList.search))
           w'.(productList).(ProductList.cart).
Proof.
  intros events w n o Hn. cbn zeta.
  assert (L : ProductList.loading
                (productList (run AsyncAwait (SettleList n o :: events) w))
              = false).
  { cbn [run fold_left]. apply run_keeps_loading_off.
    cbn [step]. rewrite Hn. destruct o as [|ok [l|]]; reflexivity. }
  split; [exact L|].
  unfold ProductList.render. now rewrite L.
Qed.

Lemma loading_ends_when_the_fetch_settles_witness :
  let w' := run AsyncAwait [SettleList 0 Rejected; TypeSearch "pen"]
                (step AsyncAwait Mount (boot AsyncAwait)) in
  w'.(productList).(ProductList.loading) = false
  /\ ProductList.render w'.(productList) =
       ProductList.Page
         (filteredProducts w'.(productList).(ProductList.products)
                           w'.(productList).(ProductList.search))
         w'.(productList).(ProductList.cart).
Proof.
  cbn zeta.
  exact (loading_ends_when_the_fetch_settles
           [TypeSearch "pen"] (step AsyncAwait Mount (boot AsyncAwait))
           0 Rejected eq_refl).
Defined.

(** ** The two versions of ProductList *)

Lemma step_samePage (e : event) (a b : world) :
  pageEvent e -> samePage a b ->
  samePage (step AsyncAwait e a) (step PromiseChain e b).
Proof.
  intros He H.
  destruct a as [[pa ca sa la] fa ia na xa], b as [[pb cb sb lb] fb ib nb xb].
  unfold samePage in H.
  cbn [productList inflight network ProductList.products ProductList.cart
       ProductList.search] in H.
  destruct H as (-> & -> & -> & -> & ->).
  unfold samePage.
  destruct e as [|s|p|i|i|s|s| |n o|n o|n o]; try contradiction He;
    cbn [step send onProductList productList addProductForm inflight
         network console ProductList.products ProductList.cart
         ProductList.search ProductList.setSearch];
    try (repeat split; reflexivity).
  - destruct (ProductList.updateProductPrice pb i);
      cbn [send productList inflight network];
      repeat split; reflexivity.
  - destruct (nth_error ib n) as [[]|]; try (repeat split; reflexivity).
    destruct o as [|ok [l|]]; repeat split; reflexivity.
  - destruct (nth_error ib n) as [[]|]; try (repeat split; reflexivity);
      destruct o as [|ok [d|]]; repeat split; reflexivity.
  - destruct (nth_error ib n) as [[]|]; try (repeat split; reflexivity).
    destruct o as [|[] j]; repeat split; reflexivity.
Qed.

(** X11. The two source files define the same product list: fed the same
    clicks, search input and responses, the async/await page and the
    promise-chain page hold the same products, cart and search string after
    every step, have the same requests in flight and have sent the same
    requests.  (They differ in the loading flag and in the console.) *)
Theorem both_versions_agree :
  forall events : list event,
    Forall pageEvent events ->
    samePage (run AsyncAwait events (boot AsyncAwait))
             (run PromiseChain events (boot PromiseChain)).
Proof.
  intros events.
  assert (G : forall a b, samePage a b -> Forall pageEvent events ->
                          samePage (run AsyncAwait events a)
                                   (run PromiseChain events b)).
  { induction events as [|e events IH]; intros a b H F; [exact H|].
    inversion F as [|? ? He Hrest]; subst.
    apply (IH (step AsyncAwait e a) (step PromiseChain e b));
      [now apply step_samePage | exact Hrest]. }
  apply G. repeat split.
Qed.

Lemma both_versions_agree_witness :
  let pen := mkProduct 1 "Pen" 2%float in
  let events := [Mount; SettleList 0 (Fulfilled true (Some [pen]));
                 ClickAddToCart pen; ClickUpdatePrice 1;
                 SettleItem 1 Rejected;
                 SettleItem 0 (Fulfilled true (Some pen));
                 ClickRemove 1; SettlePlain 0 (Fulfilled false None)] in
  samePage (run AsyncAwait events (boot AsyncAwait))
           (run PromiseChain events (boot PromiseChain)).
Proof.
  cbn zeta.
  apply (both_versions_agree
           [Mount;
            SettleList 0 (Fulfilled true (Some [mkProduct 1 "Pen" 2%float]));
            ClickAddToCart (mkProduct 1 "Pen" 2%float); ClickUpdatePrice 1;
            SettleItem 1 Rejected;
            SettleItem 0 (Fulfilled true (Some (mkProduct 1 "Pen" 2%float)));
            ClickRemove 1; SettlePlain 0 (Fulfilled false None)]).
  repeat constructor.
Defined.

(** ** Where the cart items come from *)

Lemma cartsWithin_grows (pool pool' : list product) (w : world) :
  incl pool pool' -> cartsWithin pool w -> cartsWithin pool' w.
Proof.
  intros I [Hc Hf]. split.
  - eapply incl_tran; eassumption.
  - eapply Forall_impl; [|exact Hf].
    intros [|c|c i|ps i|]; auto; intros H; eapply incl_tran; eassumption.
Qed.

Lemma cartsWithin_send (pool : list product) r k (w : world) :
  match k with
  | AddToCart cart | RemoveFromCart cart _ => incl cart pool
  | _ => True
  end ->
  cartsWithin pool w -> cartsWithin pool (send r k w).
Proof.
  intros Hk [Hc Hf]. split; [exact Hc|].
  cbn [send inflight]. apply Forall_app. split; [exact Hf | now constructor].
Qed.

Lemma step_cartsWithin (v : variant) (e : event) (pool : list product)
      (w : world) :
  cartsWithin pool w -> cartsWithin (pool ++ returned [e]) (step v e w).
Proof.
  intros H.
  assert (G : cartsWithin (pool ++ returned [e]) w).
  { eapply cartsWithin_grows; [|exact H]. apply incl_appl, incl_refl. }
  destruct G as [Gc Gf].
  destruct e as [|s|p|i|i|s|s| |n o|n o|n o]; cbn [step].
  - now apply cartsWithin_send.
  - split; assumption.
  - now apply cartsWithin_send.
  - now apply cartsWithin_send.
  - destruct (ProductList.updateProductPrice _ _); [|split; assumption].
    now apply cartsWithin_send.
  - destruct v; split; assumption.
  - destruct v; split; assumption.
  - destruct v; [|split; assumption]. now apply cartsWithin_send.
  - destruct (nth_error (inflight w) n) as [[]|] eqn:E; try (split; assumption).
    split; [|now apply Forall_without].
    destruct v, o as [|ok [l|]]; exact Gc.
  - destruct (nth_error (inflight w) n) as [[|c|c i|ps i|]|] eqn:E;
      try (split; assumption).
    + split; [|now apply Forall_without].
      pose proof (Forall_nth_error _ _ _ _ Gf E) as Hcart. cbn beta iota in Hcart.
      destruct o as [|ok [d|]]; try exact Gc.
      cbn [resumeList productList ProductList.addToCart_settled fst
           ProductList.setCart ProductList.cart].
      apply incl_app; [exact Hcart|].
      intros x [<-|[]]. apply in_or_app. right. simpl. auto.
    + split; [|now apply Forall_without].
      destruct o as [|ok [d|]]; exact Gc.
  - destruct (nth_error (inflight w) n) as [[|c|c i|ps i|]|] eqn:E;
      try (split; assumption).
    + split; [|now apply Forall_without].
      pose proof (Forall_nth_error _ _ _ _ Gf E) as Hcart. cbn beta iota in Hcart.
      destruct o as [|[] j]; try exact Gc.
      cbn [resumeList productList ProductList.removeFromCart_settled fst
           ProductList.setCart ProductList.cart].
      intros x Hx. apply filter_In in Hx. apply Hcart. tauto.
    + split; [exact Gc | now apply Forall_without].
Qed.

Lemma run_cartsWithin (v : variant) (events : list event) :
  forall pool w,
    cartsWithin pool w ->
    cartsWithin (pool ++ returned events) (run v events w).
Proof.
  induction events as [|e events IH]; intros pool w H.
  - eapply cartsWithin_grows; [|exact H]. apply incl_appl, incl_refl.
  - cbn [run fold_left]. fold (run v events (step v e w)).
    replace (returned (e :: events)) with (returned [e] ++ returned events)%list
      by (unfold returned; cbn [flat_map]; now rewrite app_nil_r).
    rewrite app_assoc. apply IH. now apply step_cartsWithin.
Qed.

(** X12. The cart only ever holds what the server returned: after every
    run of either page from its start, each item of the cart is the parsed
    body of an item response among the events, never the product that was
    clicked as such. *)
Theorem cart_holds_only_returned_items :
  forall (v : variant) (events : list event),
    incl (run v events (boot v)).(productList).(ProductList.cart)
         (returned events).
Proof.
  intros v events.
  destruct (run_cartsWithin v events [] (boot v)) as [H _].
  - split; [intros x [] | constructor].
  - exact H.
Qed.

(** ** The buttons of a row *)

Lemma same_id_same_product (products : list product) (p q : product) :
  NoDup (map id products) ->
  In p products -> In q products -> p.(id) = q.(id) -> p = q.
Proof.
  induction products as [|x l IH]; intros N Hp Hq E; [destruct Hp|].
  cbn [map] in N. inversion N as [|? ? Hx Hl]; subst.
  destruct Hp as [->|Hp], Hq as [->|Hq].
  - reflexivity.
  - exfalso. apply Hx. rewrite E. now apply in_map.
  - exfalso. apply Hx. rewrite <- E. now apply in_map.
  - now apply IH.
Qed.

(** X13. When the ids of the product list are distinct, the Update Price
    button of a row on the screen always sends a request, and its body is
    that row's product with the price raised by 10 (in binary64): the guard
    of [updateProductPrice] never fires for a click. *)
Theorem update_button_sends_its_own_row :
  forall (products : list product) (search : string) (p : product),
    NoDup (map id products) ->
    In p (filteredProducts products search) ->
    ProductList.updateProductPrice products p.(id) =
      Some (mkRequest PUT (host ++ "/products/" ++ Js.ofInteger p.(id))
                      jsonHeaders
                      (JsonBody (withPrice p (p.(price) + 10)%float))).
Proof.
  intros products search p N Hp.
  unfold filteredProducts in Hp. apply filter_In in Hp. destruct Hp as [Hp _].
  destruct (find_present products p.(id)) as [q [Hfind [Hq E]]].
  { exists p. split; [exact Hp | reflexivity]. }
  assert (q = p) by (eapply same_id_same_product; eassumption). subst q.
  unfold ProductList.updateProductPrice. now rewrite Hfind.
Qed.

Lemma update_button_sends_its_own_row_witness :
  ProductList.updateProductPrice
    [mkProduct 1 "Pen" 2%float; mkProduct 2 "Ink" 3%float] 2 =
    Some (mkRequest PUT (host ++ "/products/" ++ Js.ofInteger 2) jsonHeaders
                    (JsonBody (mkProduct 2 "Ink" 13%float))).
Proof.
  apply (update_button_sends_its_own_row
           [mkProduct 1 "Pen" 2%float; mkProduct 2 "Ink" 3%float]
           "in" (mkProduct 2 "Ink" 3%float)).
  - cbn [map id]. repeat constructor; simpl; intuition discriminate.
  - simpl. auto.
Defined.

(** ** More about the form *)

Lemma step_keeps_message_shown (v : variant) (e : event) (w : world) :
  w.(addProductForm).(AddProductForm.message) <> "" ->
  (step v e w).(addProductForm).(AddProductForm.message) <> "".
Proof.
  intros M.
  destruct (message_only_set_by_submit v e w) as [-> | [n [o [-> Hn]]]];
    [exact M|].
  cbn [step]. rewrite Hn.
  destruct o as [|ok [u|]]; cbn; discriminate.
Qed.

(** X14. The status line of the form is never cleared: once a message is
    shown it stays non-empty through every run of events, so typing a new
    name or price, or submitting again, leaves the old message on the
    screen until the next response replaces it. *)
Theorem message_is_never_cleared :
  forall (v : variant) (events : list event) (w : world),
    w.(addProductForm).(AddProductForm.message) <> "" ->
    (run v events w).(addProductForm).(AddProductForm.message) <> ""
    /\ forall value,
         (step v (TypeName value) w).(addProductForm).(AddProductForm.message)
         = w.(addProductForm).(AddProductForm.message)
         /\ (step v (TypePrice value) w).(addProductForm).(AddProductForm.message)
            = w.(addProductForm).(AddProductForm.message)
         /\ (step v Submit w).(addProductForm).(AddProductForm.message)
            = w.(addProductForm).(AddProductForm.message).
Proof.
  intros v events w M. split.
  - revert w M. induction events as [|e events IH]; intros w M; [exact M|].
    apply (IH (step v e w)). now apply step_keeps_message_shown.
  - intros value. destruct v; repeat split.
Qed.

Lemma message_is_never_cleared_witness :
  let w := run AsyncAwait [Submit; SettlePlain 0 Rejected] (boot AsyncAwait) in
  (run AsyncAwait [TypeName "Pen"; TypePrice "2"; Submit] w)
    .(addProductForm).(AddProductForm.message) <> "".
Proof.
  cbn zeta.
  refine (proj1 (message_is_never_cleared
                   AsyncAwait [TypeName "Pen"; TypePrice "2"; Submit]
                   (run AsyncAwait [Submit; SettlePlain 0 Rejected]
                        (boot AsyncAwait)) _)).
  simpl. discriminate.
Defined.

(** ** A DELETE that is answered but not ok *)

(** X15. When the DELETE request is answered with a status that is not ok,
    nothing is removed in either file, and the files differ in what they
    report: src/App.jsx reports nothing at all, the promise-chain file logs
    'Error deleting from cart'. *)
Theorem delete_not_ok_removes_nothing :
  forall (w : world) (n : nat) (cart : list product) (targetId : Z)
         (json : option unit),
    nth_error w.(inflight) n = Some (RemoveFromCart cart targetId) ->
    step AsyncAwait (SettlePlain n (Fulfilled false json)) w =
      mkWorld w.(productList) w.(addProductForm)
              (without n w.(inflight)) w.(network) w.(console)
    /\ step PromiseChain (SettlePlain n (Fulfilled false json)) w =
         mkWorld w.(productList) w.(addProductForm)
                 (without n w.(inflight)) w.(network)
                 (w.(console) ++ ["Error deleting from cart"]).
Proof.
  intros w n cart targetId json Hn.
  cbn [step]. rewrite Hn. unfold resumeList.
  cbn [ProductList.removeFromCart_settled fst snd].
  now rewrite app_nil_r.
Qed.

Lemma delete_not_ok_removes_nothing_witness :
  let pen := mkProduct 1 "Pen" 2%float in
  let w := step AsyncAwait (ClickRemove 1)
                (mkWorld (ProductList.mkState [pen] [pen] "" false)
                         AddProductForm.initial [] [] []) in
  step AsyncAwait (SettlePlain 0 (Fulfilled false None)) w =
    mkWorld w.(productList) w.(addProductForm)
            (without 0 w.(inflight)) w.(network) w.(console)
  /\ step PromiseChain (SettlePlain 0 (Fulfilled false None)) w =
       mkWorld w.(productList) w.(addProductForm)
               (without 0 w.(inflight)) w.(network)
               (w.(console) ++ ["Error deleting from cart"]).
Proof.
  cbn zeta.
  exact (delete_not_ok_removes_nothing
           (step AsyncAwait (ClickRemove 1)
                 (mkWorld (ProductList.mkState
                             [mkProduct 1 "Pen" 2%float]
                             [mkProduct 1 "Pen" 2%float] "" false)
                          AddProductForm.initial [] [] []))
           0 [mkProduct 1 "Pen" 2%float] 1 None eq_refl).
Defined.

(** ** The rows on the screen under a price response *)

Lemma shape_filteredProducts (search : string) :
  forall products products',
    shape products = shape products' ->
    shape (filteredProducts products search)
    = shape (filteredProducts products' search).
Proof.
  unfold filteredProducts.
  induction products as [|p l IH]; intros [|q l'] H;
    try discriminate H; [reflexivity|].
  cbn [shape map] in H. injection H as Hid Hname Hrest.
  cbn [filter]. rewrite Hname.
  destruct (Js.includes _ _); cbn [shape map].
  - rewrite Hid, Hname. f_equal. now apply IH.
  - now apply IH.
Qed.

(** X3. A price response never changes which rows are on the screen: in a
    world whose updates in flight closed over the current rows, whenever and
    however the response of an [updateProductPrice] settles, the products
    displayed right after it have the same ids and names, in the same order,
    as those displayed right before it -- for the search string of the state
    and for every other one.  (Prices can change, also of other rows.) *)
Theorem price_response_keeps_the_rows :
  forall (v : variant) (w : world) (n : nat) (products : list product)
         (targetId : Z) (o : outcome product),
    updatesMatch w ->
    nth_error w.(inflight) n = Some (UpdateProductPrice products targetId) ->
    let w' := step v (SettleItem n o) w in
    shape (ProductList.displayedProducts w'.(productList))
    = shape (ProductList.displayedProducts w.(productList))
    /\ forall search,
         shape (filteredProducts w'.(productList).(ProductList.products) search)
         = shape (filteredProducts w.(productList).(ProductList.products) search).
Proof.
  intros v w n products targetId o J Hn. cbn zeta.
  destruct (step_keeps_updatesMatch v (SettleItem n o) w J I) as [_ S].
  split; [|intros search; now apply shape_filteredProducts].
  assert (F : ProductList.loading (step v (SettleItem n o) w).(productList)
              = ProductList.loading w.(productList)
              /\ ProductList.search (step v (SettleItem n o) w).(productList)
                 = ProductList.search w.(productList)).
  { cbn [step]. rewrite Hn. destruct o as [|ok [d|]]; split; reflexivity. }
  destruct F as [FL FS].
  unfold ProductList.displayedProducts, ProductList.render.
  rewrite FL, FS.
  destruct (ProductList.loading (productList w)); [reflexivity|].
  now apply shape_filteredProducts.
Qed.

Lemma price_response_keeps_the_rows_witness :
  let pen := mkProduct 1 "Pen" 2%float in
  let ink := mkProduct 2 "Ink" 3%float in
  let w := run AsyncAwait
               [ClickUpdatePrice 1; ClickUpdatePrice 2;
                SettleItem 0 (Fulfilled true (Some (mkProduct 1 "Pen" 12%float)))]
               (mkWorld (ProductList.mkState [pen; ink] [] "n" false)
                        AddProductForm.initial [] [] []) in
  let w' := step AsyncAwait
                 (SettleItem 0 (Fulfilled true (Some (mkProduct 2 "Ink" 13%float))))
                 w in
  shape (ProductList.displayedProducts w'.(productList))
  = shape (ProductList.displayedProducts w.(productList))
  /\ forall search,
       shape (filteredProducts w'.(productList).(ProductList.products) search)
       = shape (filteredProducts w.(productList).(ProductList.products) search).
Proof.
  cbn zeta.
  apply (price_response_keeps_the_rows
           AsyncAwait
           (run AsyncAwait
                [ClickUpdatePrice 1; ClickUpdatePrice 2;
                 SettleItem 0 (Fulfilled true (Some (mkProduct 1 "Pen" 12%float)))]
                (mkWorld (ProductList.mkState
                            [mkProduct 1 "Pen" 2%float; mkProduct 2 "Ink" 3%float]
                            [] "n" false)
                         AddProductForm.initial [] [] []))
           0 [mkProduct 1 "Pen" 2%float; mkProduct 2 "Ink" 3%float] 2
           (Fulfilled true (Some (mkProduct 2 "Ink" 13%float)))).
  - repeat constructor.
  - reflexivity.
Defined.

(** ** Responses act on the captured cart and the captured list *)

(** The page of src/App.jsx with Pen and Ink loaded, both Add to Cart
    buttons clicked, and the response for Pen arrived. *)
Example two_adds_one_settled :
  let pen := mkProduct 1 "Pen" 2%float in
  let ink := mkProduct 2 "Ink" 3%float in
  let w := run AsyncAwait
               [Mount; SettleList 0 (Fulfilled true (Some [pen; ink]));
                ClickAddToCart pen; ClickAddToCart ink;
                SettleItem 0 (Fulfilled true (Some pen))]
               (boot AsyncAwait) in
  w.(productList).(ProductList.cart) = [pen]
  /\ w.(inflight) = [AddToCart []]
  /\ (step AsyncAwait (SettleItem 0 (Fulfilled true (Some ink))) w)
       .(productList).(ProductList.cart) = [ink].
Proof. repeat split. Qed.

(** A Remove click made before an Add response arrives: the ok DELETE of
    id 99, an id no item has, takes Ink out of the cart again. *)
Example stale_remove_drops_another_item :
  let pen := mkProduct 1 "Pen" 2%float in
  let ink := mkProduct 2 "Ink" 3%float in
  let w := run AsyncAwait
               [ClickAddToCart ink; ClickRemove 99;
                SettleItem 0 (Fulfilled true (Some ink))]
               (mkWorld (ProductList.mkState [pen; ink] [pen] "" false)
                        AddProductForm.initial [] [] []) in
  w.(productList).(ProductList.cart) = [pen; ink]
  /\ (step AsyncAwait (SettlePlain 0 (Fulfilled true None)) w)
       .(productList).(ProductList.cart) = [pen].
Proof. repeat split. Qed.




(** The page of src/App.jsx with Pen and Ink loaded, Update Price clicked
    for both, and the response for Pen arrived: the response for Ink puts
    the price of Pen back from 12 to 2. *)
Example two_updates_one_settled :
  let pen := mkProduct 1 "Pen" 2%float in
  let ink := mkProduct 2 "Ink" 3%float in
  let w := run AsyncAwait
               [Mount; SettleList 0 (Fulfilled true (Some [pen; ink]));
                ClickUpdatePrice 1; ClickUpdatePrice 2;
                SettleItem 0 (Fulfilled true (Some (mkProduct 1 "Pen" 12%float)))]
               (boot AsyncAwait) in
  w.(productList).(ProductList.products) = [mkProduct 1 "Pen" 12%float; ink]
  /\ w.(inflight) = [UpdateProductPrice [pen; ink] 2]
  /\ (step AsyncAwait
           (SettleItem 0 (Fulfilled true (Some (mkProduct 2 "Ink" 13%float)))) w)
       .(productList).(ProductList.products)
     = [pen; mkProduct 2 "Ink" 13%float].
Proof. repeat split. Qed.




(** ** The body of the PUT request, row by row *)

(** With two rows of id 5, the Update Price button of the second row sends
    the first row. *)
Example put_body_with_a_shared_id :
  ProductList.updateProductPrice
    [mkProduct 5 "Ink" 3%float; mkProduct 5 "Cap" 1%float] 5 =
    Some (mkRequest PUT "https://api.example.com/products/5" jsonHeaders
                    (JsonBody (mkProduct 5 "Ink" 13%float))).
Proof. reflexivity. Qed.

(** C10, amended. For every id present in the products list, the product
    sent in the body of the PUT request is the first product of the list
    with that id, with its id and name as they are and its price replaced by
    the binary64 sum of that price and 10.  For a product of the list whose
    id no other product shares -- every product, when the ids are distinct --
    that is the product itself. *)
Theorem put_body_is_first_match_plus_ten :
  forall (products : list product) (targetId : Z),
    (exists p, In p products /\ p.(id) = targetId) ->
    (exists p,
        find (fun p => p.(id) =? targetId) products = Some p
        /\ In p products /\ p.(id) = targetId
        /\ ProductList.updateProductPrice products targetId =
             Some (mkRequest PUT (host ++ "/products/" ++ Js.ofInteger targetId)
                             jsonHeaders
                             (JsonBody (mkProduct p.(id) p.(name)
                                                  (p.(price) + 10)%float))))
    /\ (forall p,
           In p products -> p.(id) = targetId ->
           (forall q, In q products -> q.(id) = targetId -> q = p) ->
           ProductList.updateProductPrice products targetId =
             Some (mkRequest PUT (host ++ "/products/" ++ Js.ofInteger targetId)
                             jsonHeaders
                             (JsonBody (mkProduct p.(id) p.(name)
                                                  (p.(price) + 10)%float))))
    /\ (NoDup (map id products) ->
        forall p,
          In p products -> p.(id) = targetId ->
          ProductList.updateProductPrice products targetId =
            Some (mkRequest PUT (host ++ "/products/" ++ Js.ofInteger targetId)
                            jsonHeaders
                            (JsonBody (mkProduct p.(id) p.(name)
                                                 (p.(price) + 10)%float)))).
Proof.
  intros products targetId Hin.
  apply find_present in Hin. destruct Hin as [q [Hfind [Hq Hid]]].
  assert (U : ProductList.updateProductPrice products targetId =
              Some (mkRequest PUT (host ++ "/products/" ++ Js.ofInteger targetId)
                              jsonHeaders
                              (JsonBody (mkProduct q.(id) q.(name)
                                                   (q.(price) + 10)%float)))).
  { unfold ProductList.updateProductPrice. now rewrite Hfind. }
  split; [|split].
  - exists q. auto.
  - intros p Hp Hpid Honly. rewrite U.
    now rewrite (Honly q Hq Hid).
  - intros N p Hp Hpid. rewrite U.
    assert (q = p) by (apply (same_id_same_product products); congruence).
    now subst.
Qed.

Lemma put_body_is_first_match_plus_ten_witness :
  exists p,
    find (fun p => p.(id) =? 5)
         [mkProduct 1 "Pen" 2%float; mkProduct 5 "Ink" 3%float;
          mkProduct 5 "Cap" 1%float] = Some p
    /\ In p [mkProduct 1 "Pen" 2%float; mkProduct 5 "Ink" 3%float;
             mkProduct 5 "Cap" 1%float]
    /\ p.(id) = 5
    /\ ProductList.updateProductPrice
         [mkProduct 1 "Pen" 2%float; mkProduct 5 "Ink" 3%float;
          mkProduct 5 "Cap" 1%float] 5 =
         Some (mkRequest PUT (host ++ "/products/" ++ Js.ofInteger 5)
                         jsonHeaders
                         (JsonBody (mkProduct p.(id) p.(name)
                                              (p.(price) + 10)%float))).
Proof.
  refine (proj1 (put_body_is_first_match_plus_ten
                   [mkProduct 1 "Pen" 2%float; mkProduct 5 "Ink" 3%float;
                    mkProduct 5 "Cap" 1%float] 5 _)).
  exists (mkProduct 5 "Cap" 1%float). split; [simpl; auto | reflexivity].
Defined.
